(** * googledataprocauthenticator.google: a shallow embedding

    The module under study is orchestration code: it sequences calls to a
    credential command-line tool, to the ambient credential discovery of the
    identity library, to the cluster control plane and to the token refresh
    of a credentials object, and translates their failures.

    The embedding keeps that shape.  Every external collaborator is a field
    of a [World] record (a deterministic oracle: the environment is taken to
    be stable for the duration of one call of the module).  Computations run
    in a small monad that records the trace of external calls and ends
    either with a returned value or with a raised exception; methods of
    [GoogleAuth] additionally thread the instance, so that attribute
    assignments made before an exception is raised stay visible. *)

From stdpp Require Import gmap strings list fin_maps fin_sets.

Set Default Proof Using "Type".

(** ** Exceptions *)

(** The exception classes that the module names, catches or lets through.
    [IOError] is an alias of [OSError] in Python 3 and has no constructor of
    its own. *)
Inductive exn_class : Type :=
| CalledProcessError
| OSError
| FileNotFoundError
| ValueError
| JSONDecodeError
| KeyError
| TypeError
| AttributeError
| UserAccessTokenError
| RefreshError
| GoogleAPICallError
| BadUserConfigurationException
| OtherError (name : string).

Global Instance exn_class_eq_dec : EqDecision exn_class.
Proof. solve_decision. Defined.

(** Direct superclass below [Exception], where there is one. *)
Definition superclass (c : exn_class) : option exn_class :=
  match c with
  | FileNotFoundError => Some OSError
  | JSONDecodeError => Some ValueError
  | _ => None
  end.

(** [issubclass c d]: the class hierarchy above has depth two. *)
Definition issubclass (c d : exn_class) : bool :=
  bool_decide (c = d) || bool_decide (superclass c = Some d).

(** An exception object: its class and its message; [ExnFrom] is an
    exception raised by [raise ... from cause], whose [__cause__] is set. *)
Inductive exn : Type :=
| Exn (cls : exn_class) (message : string)
| ExnFrom (cls : exn_class) (message : string) (cause : exn).

Definition exn_cls (e : exn) : exn_class :=
  match e with Exn c _ | ExnFrom c _ _ => c end.
Definition exn_message (e : exn) : string :=
  match e with Exn _ m | ExnFrom _ m _ => m end.
Definition exn_cause (e : exn) : option exn :=
  match e with Exn _ _ => None | ExnFrom _ _ c => Some c end.

Definition isinstance (e : exn) (classes : list exn_class) : bool :=
  existsb (issubclass (exn_cls e)) classes.

(** What [subprocess.check_output] raises when no timeout is given: a
    non-zero exit status ([CalledProcessError]), a missing executable
    ([FileNotFoundError], a subclass of [OSError]) or another failure of the
    operating system ([OSError]). *)
Inductive subprocess_failure : Type :=
| NonZeroExit (message : string)
| MissingBinary (message : string)
| IOFailure (message : string).

Definition subprocess_exn (f : subprocess_failure) : exn :=
  match f with
  | NonZeroExit message => Exn CalledProcessError message
  | MissingBinary message => Exn FileNotFoundError message
  | IOFailure message => Exn OSError message
  end.

(** ** Outcomes *)

Inductive outcome (A : Type) : Type :=
| Return (a : A)
| Raise (e : exn).
Arguments Return {A} a.
Arguments Raise {A} e.

Definition raised {A} (o : outcome A) : option exn :=
  match o with Return _ => None | Raise e => Some e end.

(** ** Data of the module *)

Definition bytes := string.

(** [google.oauth2.credentials.Credentials], as far as the module looks into
    it: the validity flag, the token (absent until the first refresh), the
    scopes it was built with and the token-source data it was built from.
    The record is the object as one call of the module reads it: [valid] is
    what the property reports at that read.  The model has no clock, so it
    says nothing about a token that expires between two calls. *)
Record Credentials : Type := {
  valid : bool;
  token : option string;
  cred_scopes : list string;
  token_source : string
}.

(** One element of the array printed by [gcloud auth list --format json]. *)
Record account_entry : Type := {
  entry_account : string;
  entry_status : string
}.

(** The object printed by [gcloud auth describe ACCOUNT --format json]. *)
Definition account_describe := list (string * string).

(** What [json.loads] returns on the output of the describe command: a JSON
    object, or another JSON value (an array, a string, a number, a boolean
    or null), of which only the name of its Python type matters here. *)
Inductive describe_json : Type :=
| JsonObject (members : account_describe)
| JsonOther (python_type : string).

(** [urllib3.util.Url], as far as the module looks into it. *)
Record Url : Type := {
  scheme : option string;
  netloc : option string
}.

(** The part of a cluster description that the module reads:
    [response.config.endpoint_config.http_ports], in iteration order. *)
Record Cluster : Type := {
  http_ports : list (string * string)
}.

(** The parsed configuration handed over by the host framework. *)
Record ParsedAttributes : Type := {
  account : string;
  attributes_url : string
}.

(** The request object of the host framework: a mutable [headers] mapping
    and the rest of the request, which the module never touches. *)
Record Request : Type := {
  headers : gmap string string;
  request_rest : string
}.

(** ** External calls *)

Inductive event : Type :=
| EvCheckOutput (command : list string)
| EvGetAuthAccessToken (account : string)
| EvAuthDefault (scopes : list string)
| EvGetCluster (api_endpoint project_id region cluster_name : string)
| EvRefresh (credentials : Credentials).

Global Instance Credentials_eq_dec : EqDecision Credentials.
Proof. solve_decision. Defined.
Global Instance event_eq_dec : EqDecision event.
Proof. solve_decision. Defined.

(** The collaborators of the module.  None of them is code of the
    repository; each is typed by its documented contract.

    - [check_output] is [subprocess.check_output(command, stderr=STDOUT)].
    - [loads_accounts] is [json.loads] on the output of the list command,
      read at the shape the tool promises; [loads_describe] is [json.loads]
      on the output of the describe command, whatever JSON value it is;
      [inl message] is a [JSONDecodeError].
    - [get_auth_access_token] is [google.auth._cloud_sdk.get_auth_access_token];
      [inl message] is its [UserAccessTokenError].
    - [from_authorized_user_info] is the class method of [Credentials] on
      a JSON object; [inl message] is its [ValueError].
    - [auth_default] is [google.auth.default(scopes=...)].
    - [get_cluster] builds a [ClusterControllerClient] for the credentials
      and the API endpoint and calls [get_cluster] on it.
    - [popitem_pick] is the position of the entry that [popitem] removes
      from a non-empty port mapping (the container decides).
    - [parse_url] is [urllib3.util.parse_url].
    - [refresh] is [Credentials.refresh(request)]: the credentials after a
      successful refresh, or the exception it raises.
    - [py_hash] is the builtin [hash] on the tuple built by [__hash__].
    - [authenticator_url] is the [url] attribute that the base class
      [sparkmagic.auth.customauth.Authenticator.__init__] assigns.
    - [WIDGET_WIDTH] is [sparkmagic.utils.constants.WIDGET_WIDTH]. *)
Record World : Type := {
  os_name : string;
  check_output : list string → subprocess_failure + bytes;
  loads_accounts : bytes → string + list account_entry;
  loads_describe : bytes → string + describe_json;
  get_auth_access_token : string → string + string;
  from_authorized_user_info : account_describe → list string → string + Credentials;
  auth_default : list string → outcome (option Credentials * option string);
  get_cluster : Credentials → string → string → string → string → outcome Cluster;
  popitem_pick : list (string * string) → nat;
  parse_url : string → outcome Url;
  refresh : Credentials → outcome Credentials;
  py_hash : option string * string * string → Z;
  authenticator_url : option ParsedAttributes → string;
  WIDGET_WIDTH : string
}.

(** ** The monad of module-level functions: a trace and an outcome *)

Definition IO (A : Type) : Type := list event * outcome A.

Definition io_ret {A} (a : A) : IO A := ([], Return a).
Definition io_raise {A} (e : exn) : IO A := ([], Raise e).
Definition io_bind {A B} (m : IO A) (k : A → IO B) : IO B :=
  match m with
  | (t, Return a) => let '(t', o) := k a in (t ++ t', o)
  | (t, Raise e) => (t, Raise e)
  end.

(** One external call: the event is recorded, the oracle answers. *)
Definition call {A} (ev : event) (answer : outcome A) : IO A := ([ev], answer).

(** A library call with one documented exception class: [inl message] is
    that exception. *)
Definition checked {A} (c : exn_class) (answer : string + A) : outcome A :=
  match answer with inl message => Raise (Exn c message) | inr a => Return a end.

Definition subprocess_outcome (answer : subprocess_failure + bytes) : outcome bytes :=
  match answer with inl f => Raise (subprocess_exn f) | inr output => Return output end.

(** A library call that reaches nothing outside the process. *)
Definition pure_call {A} (answer : outcome A) : IO A := ([], answer).

(** [try: body except classes as caught: handler caught].  Where the
    source lists [IOError], the list below repeats [OSError]. *)
Definition try_except {A} (body : IO A) (classes : list exn_class)
    (handler : exn → IO A) : IO A :=
  match body with
  | (t, Raise e) =>
      if isinstance e classes
      then let '(t', o) := handler e in (t ++ t', o)
      else (t, Raise e)
  | returned => returned
  end.

(** [try: body except: handler] (a bare [except] catches everything). *)
Definition try_except_all {A} (body : IO A) (handler : exn → IO A) : IO A :=
  match body with
  | (t, Raise e) => let '(t', o) := handler e in (t ++ t', o)
  | returned => returned
  end.

Global Instance IO_ret : MRet IO := @io_ret.
Global Instance IO_bind : MBind IO := λ A B k m, io_bind m k.

Definition trace {A} (m : IO A) : list event := m.1.
Definition result {A} (m : IO A) : outcome A := m.2.

(** [str(x)] inside an f-string, for a value that may be [None]. *)
Definition format_str (x : option string) : string :=
  match x with Some s => s | None => "None" end.

(** ** Module constants *)

Definition _CLOUD_SDK_POSIX_COMMAND : string := "gcloud".
Definition _CLOUD_SDK_WINDOWS_COMMAND : string := "gcloud.cmd".
Definition _CLOUD_SDK_USER_CREDENTIALED_ACCOUNTS_COMMAND : list string :=
  ["auth"; "list"; "--format"; "json"].

(** ** [list_accounts_pairs] *)

Definition list_accounts_pairs (credentialed_accounts : gset string)
    (default_credentials_configured : bool) : gmap string string :=
  let accounts := credentialed_accounts in
  let accounts_dict :=
    set_fold (λ account (accounts_dict : gmap string string),
                <[account := account]> accounts_dict) ∅ accounts in
  if default_credentials_configured
  then <["default-credentials" := "default-credentials"]> accounts_dict
  else accounts_dict.

(** ** The instance *)

Record TextWidget : Type := {
  text_description : string;
  text_width : string;
  text_value : string
}.

Record Dropdown : Type := {
  dropdown_options : gmap string string;
  dropdown_value : option string;
  dropdown_description : string;
  dropdown_disabled : bool
}.

(** The attributes of a [GoogleAuth] instance.  [class_name] is
    [self.__class__.__name__]; [project] is [None] also when the attribute
    was never assigned; [url] is the attribute of the base class. *)
Record GoogleAuth : Type := {
  class_name : string;
  credentialed_accounts : gset string;
  scopes : list string;
  active_credentials : option string;
  default_credentials_configured : bool;
  credentials : option Credentials;
  project : option string;
  url : string;
  project_widget : TextWidget;
  cluster_name_widget : TextWidget;
  region_widget : TextWidget;
  google_credentials_widget : Dropdown
}.

Definition set_credentials (c : option Credentials) (self : GoogleAuth) : GoogleAuth :=
  {| class_name := class_name self;
     credentialed_accounts := credentialed_accounts self;
     scopes := scopes self;
     active_credentials := active_credentials self;
     default_credentials_configured := default_credentials_configured self;
     credentials := c;
     project := project self;
     url := url self;
     project_widget := project_widget self;
     cluster_name_widget := cluster_name_widget self;
     region_widget := region_widget self;
     google_credentials_widget := google_credentials_widget self |}.

Definition set_project (p : option string) (self : GoogleAuth) : GoogleAuth :=
  {| class_name := class_name self;
     credentialed_accounts := credentialed_accounts self;
     scopes := scopes self;
     active_credentials := active_credentials self;
     default_credentials_configured := default_credentials_configured self;
     credentials := credentials self;
     project := p;
     url := url self;
     project_widget := project_widget self;
     cluster_name_widget := cluster_name_widget self;
     region_widget := region_widget self;
     google_credentials_widget := google_credentials_widget self |}.

Definition set_url (u : string) (self : GoogleAuth) : GoogleAuth :=
  {| class_name := class_name self;
     credentialed_accounts := credentialed_accounts self;
     scopes := scopes self;
     active_credentials := active_credentials self;
     default_credentials_configured := default_credentials_configured self;
     credentials := credentials self;
     project := project self;
     url := u;
     project_widget := project_widget self;
     cluster_name_widget := cluster_name_widget self;
     region_widget := region_widget self;
     google_credentials_widget := google_credentials_widget self |}.

Definition set_header (key value : string) (request : Request) : Request :=
  {| headers := <[key := value]> (headers request);
     request_rest := request_rest request |}.

(** The four widgets built by [get_widgets]. *)
Record Widgets : Type := {
  widgets_project : TextWidget;
  widgets_cluster_name : TextWidget;
  widgets_region : TextWidget;
  widgets_google_credentials : Dropdown
}.

(** ** The monad of methods: the instance is threaded, and the attributes
       assigned before an exception stay assigned *)

Definition Method (A : Type) : Type :=
  GoogleAuth → list event * GoogleAuth * outcome A.

Definition method_ret {A} (a : A) : Method A := λ self, ([], self, Return a).
Definition method_raise {A} (e : exn) : Method A := λ self, ([], self, Raise e).
Definition method_bind {A B} (m : Method A) (k : A → Method B) : Method B :=
  λ self,
    match m self with
    | (t, self', Return a) => let '(t', self'', o) := k a self' in (t ++ t', self'', o)
    | (t, self', Raise e) => (t, self', Raise e)
    end.
Definition lift_io {A} (m : IO A) : Method A := λ self, (m.1, self, m.2).
Definition get_self : Method GoogleAuth := λ self, ([], self, Return self).
Definition assign (f : GoogleAuth → GoogleAuth) : Method unit :=
  λ self, ([], f self, Return ()).

Definition method_try_except_all {A} (body : Method A) (handler : exn → Method A)
    : Method A :=
  λ self,
    match body self with
    | (t, self', Raise e) => let '(t', self'', o) := handler e self' in (t ++ t', self'', o)
    | returned => returned
    end.

Global Instance Method_ret : MRet Method := @method_ret.
Global Instance Method_bind : MBind Method := λ A B k m, method_bind m k.

(** ** The module, over a world *)

Section Module.
Context (W : World).

(** [if os.name == "nt": command = ... else: command = ...]. *)
Definition cloud_sdk_command : string :=
  if String.eqb (os_name W) "nt"
  then _CLOUD_SDK_WINDOWS_COMMAND
  else _CLOUD_SDK_POSIX_COMMAND.

(** The [for account in all_accounts] loop of [list_credentialed_accounts],
    with the two variables it updates. *)
Fixpoint for_account_in (all_accounts : list account_entry)
    (credentialed_accounts : gset string) (active_account : option string)
    : IO (gset string * option string) :=
  match all_accounts with
  | [] => mret (credentialed_accounts, active_account)
  | account :: all_accounts =>
      '(credentialed_accounts, active_account) ←
        try_except
          (_ ← call (EvGetAuthAccessToken (entry_account account))
                    (checked UserAccessTokenError
                       (get_auth_access_token W (entry_account account)));
           let active_account :=
             if String.eqb (entry_status account) "ACTIVE"
             then Some (entry_account account)
             else active_account in
           mret ({[entry_account account]} ∪ credentialed_accounts, active_account))
          [UserAccessTokenError]
          (λ _, mret (credentialed_accounts, active_account));
      for_account_in all_accounts credentialed_accounts active_account
  end.

Definition list_credentialed_accounts : IO (gset string * option string) :=
  let command := cloud_sdk_command in
  try_except
    (let command := command :: _CLOUD_SDK_USER_CREDENTIALED_ACCOUNTS_COMMAND in
     accounts_json ← call (EvCheckOutput command)
                          (subprocess_outcome (check_output W command));
     all_accounts ← pure_call (checked JSONDecodeError (loads_accounts W accounts_json));
     for_account_in all_accounts ∅ None)
    [CalledProcessError; OSError; OSError]
    (λ caught_exc,
       io_raise (ExnFrom BadUserConfigurationException
                   "Gcloud cannot be invoked." caught_exc)).

(** [Credentials.from_authorized_user_info(account_describe, scopes=...)].
    The class method starts by reading the keys of its argument: a value
    that is not a mapping has none, which is an [AttributeError]. *)
Definition authorized_user_credentials (account_describe : describe_json)
    (scopes_list : list string) : outcome Credentials :=
  match account_describe with
  | JsonObject members =>
      checked ValueError (from_authorized_user_info W members scopes_list)
  | JsonOther python_type =>
      Raise (Exn AttributeError
               ("'" +:+ python_type +:+ "' object has no attribute 'keys'"))
  end.

Definition get_credentials_for_account (account : string)
    (scopes_list : list string) : IO Credentials :=
  let command := cloud_sdk_command in
  try_except
    (let describe_account_command := ["auth"; "describe"; account; "--format"; "json"] in
     let command := command :: describe_account_command in
     account_json ← call (EvCheckOutput command)
                          (subprocess_outcome (check_output W command));
     account_describe ← pure_call (checked JSONDecodeError (loads_describe W account_json));
     pure_call (authorized_user_credentials account_describe scopes_list))
    [CalledProcessError; OSError; OSError; ValueError; JSONDecodeError]
    (λ caught_exc,
       io_raise (ExnFrom UserAccessTokenError
                   ("Could not obtain access token for " +:+ account) caught_exc)).

(** [http_ports.popitem()]: a [KeyError] on an empty mapping, else the
    entry the container picks. *)
Definition popitem (ports : list (string * string)) : IO (string * string) :=
  match ports with
  | [] => io_raise (Exn KeyError "popitem(): mapping is empty")
  | first :: _ => mret (nth (popitem_pick W ports) ports first)
  end.

Definition get_component_gateway_url (project_id region cluster_name : string)
    (credentials : Credentials) : IO string :=
  let api_endpoint := region +:+ "-dataproc.googleapis.com:443" in
  try_except_all
    (response ← call (EvGetCluster api_endpoint project_id region cluster_name)
                     (get_cluster W credentials api_endpoint project_id region cluster_name);
     item ← popitem (http_ports response);
     let url := item.2 in
     parsed_uri ← pure_call (parse_url W url);
     let endpoint_address :=
       (format_str (scheme parsed_uri) +:+ "://" +:+ format_str (netloc parsed_uri) +:+ "/")
       +:+ "gateway/default/livy/v1" in
     mret endpoint_address)
    (λ e, io_raise e).

Definition default_scopes : list string :=
  ["https://www.googleapis.com/auth/cloud-platform";
   "https://www.googleapis.com/auth/userinfo.email"].

Definition application_default_credentials_configured : IO bool :=
  try_except_all
    ('(credentials, project) ← call (EvAuthDefault default_scopes)
                                    (auth_default W default_scopes);
     mret (bool_decide (credentials ≠ None)))
    (λ _, mret false).

(** *** [GoogleAuth] *)

(** [get_widgets], as a function of the three attributes it reads; the
    caller stores the four widgets in the instance. *)
Definition get_widgets (credentialed_accounts : gset string)
    (default_credentials_configured : bool) (active_credentials : option string)
    (widget_width : string) : Widgets :=
  let project_widget :=
    {| text_description := "Project:"; text_width := widget_width; text_value := "" |} in
  let cluster_name_widget :=
    {| text_description := "Cluster:"; text_width := widget_width; text_value := "" |} in
  let region_widget :=
    {| text_description := "Region:"; text_width := widget_width; text_value := "" |} in
  let options := list_accounts_pairs credentialed_accounts default_credentials_configured in
  let google_credentials_widget :=
    match active_credentials with
    | Some active =>
        {| dropdown_options := options; dropdown_value := Some active;
           dropdown_description := "Account:"; dropdown_disabled := false |}
    | None =>
        {| dropdown_options := options; dropdown_value := None;
           dropdown_description := "Account:"; dropdown_disabled := true |}
    end in
  {| widgets_project := project_widget;
     widgets_cluster_name := cluster_name_widget;
     widgets_region := region_widget;
     widgets_google_credentials := google_credentials_widget |}.

Definition not_credentialed_message (account : string) : string :=
  account +:+ " is not a credentialed account. Run `gcloud auth login` in "
  +:+ "your command line to authorize gcloud to access the Cloud Platform with Google user "
  +:+ "credentials to authenticate. Run `gcloud auth application-default login` acquire new "
  +:+ "user credentials to use for Application Default Credentials. Run `gcloud auth list` to see "
  +:+ "your credentialed accounts.".

(** [__init__] returns the instance it has initialised; the attributes
    [active_credentials], [credentials] and [project] are those the identity
    selection leaves ([project] is not assigned on the resolver path).  The
    call of the base class assigns [url]; it and the last statement build
    the widgets. *)
Definition __init__ (parsed_attributes : option ParsedAttributes) : IO GoogleAuth :=
  '(credentialed_accounts, active_user_account) ← list_credentialed_accounts;
  let scopes := default_scopes in
  default_credentials_configured ← application_default_credentials_configured;
  let account_dict := list_accounts_pairs credentialed_accounts default_credentials_configured in
  '(active_credentials, credentials, project) ←
    match parsed_attributes with
    | Some parsed_attributes =>
        if bool_decide (is_Some (account_dict !! account parsed_attributes)) then
          let active_credentials := account parsed_attributes in
          if String.eqb active_credentials "default-credentials"
             && default_credentials_configured
          then
            '(credentials, project) ← call (EvAuthDefault scopes) (auth_default W scopes);
            mret (Some active_credentials, credentials, project)
          else
            credentials ← get_credentials_for_account active_credentials scopes;
            mret (Some active_credentials, Some credentials, None)
        else
          let new_exc :=
            Exn BadUserConfigurationException
                (not_credentialed_message (account parsed_attributes)) in
          io_raise new_exc
    | None =>
        if default_credentials_configured then
          '(credentials, project) ← call (EvAuthDefault scopes) (auth_default W scopes);
          mret (Some "default-credentials", credentials, project)
        else
          match active_user_account with
          | Some active_user_account =>
              credentials ← get_credentials_for_account active_user_account scopes;
              mret (Some active_user_account, Some credentials, None)
          | None => mret (None, None, None)
          end
    end;
  let url := authenticator_url W parsed_attributes in
  let widgets := get_widgets credentialed_accounts default_credentials_configured
                             active_credentials (WIDGET_WIDTH W) in
  mret {| class_name := "GoogleAuth";
          credentialed_accounts := credentialed_accounts;
          scopes := scopes;
          active_credentials := active_credentials;
          default_credentials_configured := default_credentials_configured;
          credentials := credentials;
          project := project;
          url := url;
          project_widget := widgets_project widgets;
          cluster_name_widget := widgets_cluster_name widgets;
          region_widget := widgets_region widgets;
          google_credentials_widget := widgets_google_credentials widgets |}.

(** [account] is the value of the dropdown, [None] when nothing is
    selected; [subprocess] rejects a [None] argument with a [TypeError]. *)
Definition initialize_credentials_with_auth_account_selection
    (account : option string) : Method unit :=
  self ← get_self;
  if bool_decide (account ≠ active_credentials self) then
    if bool_decide (account = Some "default-credentials") then
      '(credentials, project) ← lift_io (call (EvAuthDefault (scopes self))
                                              (auth_default W (scopes self)));
      assign (λ self, set_project project (set_credentials credentials self))
    else
      match account with
      | Some account =>
          credentials ← lift_io (get_credentials_for_account account (scopes self));
          assign (set_credentials (Some credentials))
      | None =>
          method_raise (Exn TypeError "expected str, bytes or os.PathLike object, not NoneType")
      end
  else mret ().

Definition no_credentials_message : string :=
  "Failed to obtain access token. Run `gcloud auth login` in your command line "
  +:+ "to authorize gcloud to access the Cloud Platform with Google user credentials to "
  +:+ "authenticate. Run `gcloud auth application-default login` acquire new user "
  +:+ "credentials to use for Application Default Credentials.".

Definition update_with_widget_values : Method unit :=
  let no_credentials_exception :=
    Exn BadUserConfigurationException no_credentials_message in
  self ← get_self;
  _ ← match credentials self with
      | Some credentials =>
          method_try_except_all
            (url ← lift_io (get_component_gateway_url
                              (text_value (project_widget self))
                              (text_value (region_widget self))
                              (text_value (cluster_name_widget self))
                              credentials);
             assign (set_url url))
            (λ e, method_raise e)
      | None => method_raise no_credentials_exception
      end;
  self ← get_self;
  initialize_credentials_with_auth_account_selection
    (dropdown_value (google_credentials_widget self)).

(** [request] is mutated in place and returned; [self.callable_request] is
    the transport helper handed to [refresh], which the oracle subsumes. *)
Definition __call__ (request : Request) : Method Request :=
  self ← get_self;
  match credentials self with
  | None => method_raise (Exn AttributeError "'NoneType' object has no attribute 'valid'")
  | Some credentials =>
      credentials ←
        (if negb (valid credentials) then
           refreshed ← lift_io (call (EvRefresh credentials) (refresh W credentials));
           _ ← assign (set_credentials (Some refreshed));
           mret refreshed
         else mret credentials);
      let request :=
        set_header "Authorization" ("Bearer " +:+ format_str (token credentials)) request in
      mret request
  end.

Definition __hash__ (self : GoogleAuth) : Z :=
  py_hash W (active_credentials self, url self, class_name self).

End Module.

(** ** Statements shared by the theorems *)

(** The contract of [list_accounts_pairs] as the specification words it:
    every account is bound to itself, the entry for the default credentials
    is there exactly when they are configured, and the size is the number of
    accounts plus one for that entry. *)
Definition accounts_pairs_contract (A : gset string) (d : bool) : Prop :=
  let pairs := list_accounts_pairs A d in
  (∀ a, a ∈ A → pairs !! a = Some a) ∧
  (pairs !! "default-credentials" = Some "default-credentials" ↔ d = true) ∧
  size pairs = size A + (if d then 1 else 0).

(** The number of refresh calls in a trace. *)
Definition is_refresh (ev : event) : bool :=
  match ev with EvRefresh _ => true | _ => false end.
Definition refresh_calls (t : list event) : nat :=
  length (List.filter is_refresh t).

(** The [Authorization] header that [__call__] attaches for a token. *)
Definition bearer (c : Credentials) : string :=
  "Bearer " +:+ format_str (token c).

(** The contract of the per-request callable as the specification words it:
    one refresh call for invalid credentials and none for valid ones, and in
    both cases the request comes back with the bearer header of the token
    that the credentials hold afterwards. *)
Definition signing_contract (W : World) (self : GoogleAuth) (request : Request) : Prop :=
  ∀ c, credentials self = Some c →
    let '(t, self', o) := __call__ W request self in
    refresh_calls t = (if valid c then 0 else 1) ∧
    ∃ c' request',
      credentials self' = Some c' ∧ o = Return request' ∧
      headers request' !! "Authorization" = Some (bearer c').

(** The command line of the account enumeration and of the resolver. *)
Definition list_command (W : World) : list string :=
  cloud_sdk_command W :: _CLOUD_SDK_USER_CREDENTIALED_ACCOUNTS_COMMAND.
Definition describe_command (W : World) (account : string) : list string :=
  cloud_sdk_command W :: ["auth"; "describe"; account; "--format"; "json"].

(** A trace in which the Account-to-Credential Resolver was not invoked:
    its first action is the [describe] command. *)
Definition resolver_not_invoked (W : World) (t : list event) : Prop :=
  ∀ account, EvCheckOutput (describe_command W account) ∉ t.

(** A trace in which the Endpoint Resolver was not invoked: its first
    action is the [get_cluster] call. *)
Definition endpoint_resolver_not_invoked (t : list event) : Prop :=
  ∀ api_endpoint project_id region cluster_name,
    EvGetCluster api_endpoint project_id region cluster_name ∉ t.

(** The contract of a construction without an explicit account as the
    specification words it: when default credentials are configured (the
    discovery yields a credentials object), construction returns an instance
    whose active identity is "default-credentials" and whose credentials are
    the discovered ones, and the Account-to-Credential Resolver is not
    invoked. *)
Definition default_selection_contract (W : World) : Prop :=
  ∀ c p, auth_default W default_scopes = Return (Some c, p) →
    ∃ self,
      result (__init__ W None) = Return self ∧
      active_credentials self = Some "default-credentials" ∧
      credentials self = Some c ∧
      resolver_not_invoked W (trace (__init__ W None)).

(** ** Worlds to run the module in *)

(** A reading of simple absolute URLs, [scheme://netloc/path]. *)
Fixpoint split_at_slash (s : string) : string :=
  match s with
  | EmptyString => EmptyString
  | String c rest =>
      if String.eqb (String c EmptyString) "/" then EmptyString else String c (split_at_slash rest)
  end.

Definition simple_parse_url (u : string) : outcome Url :=
  match String.index 0 "://" u with
  | Some n =>
      Return {| scheme := Some (String.substring 0 n u);
                netloc := Some (split_at_slash
                                  (String.substring (n + 3) (String.length u - (n + 3)) u)) |}
  | None => Return {| scheme := None; netloc := None |}
  end.

Definition fresh_credentials (source : string) (scopes : list string) : Credentials :=
  {| valid := false; token := None; cred_scopes := scopes; token_source := source |}.

Definition refreshed_credentials (c : Credentials) : Credentials :=
  {| valid := true; token := Some ("ya29." +:+ token_source c);
     cred_scopes := cred_scopes c; token_source := token_source c |}.

(** A machine with two accounts in the tool, [alice@example.com] (active)
    and [bob@example.com] (whose access token cannot be obtained), default
    credentials configured, and one cluster with a single Livy port. *)
Definition demo_world : World :=
  {| os_name := "posix";
     check_output := λ command,
       match command with
       | ["gcloud"; "auth"; "list"; "--format"; "json"] => inr "accounts"
       | ["gcloud"; "auth"; "describe"; account; "--format"; "json"] => inr account
       | _ => inl (NonZeroExit "returned non-zero exit status 2")
       end;
     loads_accounts := λ output,
       if String.eqb output "accounts"
       then inr [ {| entry_account := "alice@example.com"; entry_status := "ACTIVE" |};
                  {| entry_account := "bob@example.com"; entry_status := "" |} ]
       else inl "Expecting value: line 1 column 1 (char 0)";
     loads_describe := λ output, inr (JsonObject [("refresh_token", output)]);
     get_auth_access_token := λ account,
       if String.eqb account "alice@example.com"
       then inr "ya29.alice"
       else inl "Failed to obtain access token";
     from_authorized_user_info := λ info scopes,
       match info with
       | [("refresh_token", source)] => inr (fresh_credentials source scopes)
       | _ => inl "Authorized user info was not in the expected format"
       end;
     auth_default := λ scopes,
       Return (Some (fresh_credentials "application-default" scopes), Some "demo-project");
     get_cluster := λ _ _ _ _ _,
       Return {| http_ports := [("Livy", "http://host:1234")] |};
     popitem_pick := λ _, 0;
     parse_url := simple_parse_url;
     refresh := λ c, Return (refreshed_credentials c);
     py_hash := λ '(active, url, name),
       Z.of_nat (String.length (format_str active) + String.length url + String.length name);
     authenticator_url := λ parsed_attributes,
       match parsed_attributes with
       | Some parsed_attributes => attributes_url parsed_attributes
       | None => "http://example.com/livy"
       end;
     WIDGET_WIDTH := "800px" |}.

(** The same machine with other answers from one collaborator. *)
Definition with_check_output (f : list string → subprocess_failure + bytes)
    (W : World) : World :=
  {| os_name := os_name W; check_output := f;
     loads_accounts := loads_accounts W; loads_describe := loads_describe W;
     get_auth_access_token := get_auth_access_token W;
     from_authorized_user_info := from_authorized_user_info W;
     auth_default := auth_default W; get_cluster := get_cluster W;
     popitem_pick := popitem_pick W; parse_url := parse_url W;
     refresh := refresh W; py_hash := py_hash W;
     authenticator_url := authenticator_url W; WIDGET_WIDTH := WIDGET_WIDTH W |}.

Definition with_auth_default
    (f : list string → outcome (option Credentials * option string))
    (W : World) : World :=
  {| os_name := os_name W; check_output := check_output W;
     loads_accounts := loads_accounts W; loads_describe := loads_describe W;
     get_auth_access_token := get_auth_access_token W;
     from_authorized_user_info := from_authorized_user_info W;
     auth_default := f; get_cluster := get_cluster W;
     popitem_pick := popitem_pick W; parse_url := parse_url W;
     refresh := refresh W; py_hash := py_hash W;
     authenticator_url := authenticator_url W; WIDGET_WIDTH := WIDGET_WIDTH W |}.

Definition with_refresh (f : Credentials → outcome Credentials) (W : World) : World :=
  {| os_name := os_name W; check_output := check_output W;
     loads_accounts := loads_accounts W; loads_describe := loads_describe W;
     get_auth_access_token := get_auth_access_token W;
     from_authorized_user_info := from_authorized_user_info W;
     auth_default := auth_default W; get_cluster := get_cluster W;
     popitem_pick := popitem_pick W; parse_url := parse_url W;
     refresh := f; py_hash := py_hash W;
     authenticator_url := authenticator_url W; WIDGET_WIDTH := WIDGET_WIDTH W |}.

(** A machine whose token endpoint refuses every refresh. *)
Definition refusing_world : World :=
  with_refresh (λ _, Raise (Exn RefreshError "invalid_grant: Token has been expired or revoked."))
               demo_world.

(** A machine without default credentials and without accounts in the tool. *)
Definition bare_world : World :=
  with_auth_default
    (λ _, Raise (Exn (OtherError "DefaultCredentialsError")
                     "Could not automatically determine credentials."))
    (with_check_output
       (λ command,
          match command with
          | ["gcloud"; "auth"; "list"; "--format"; "json"] => inr "none"
          | _ => inl (NonZeroExit "returned non-zero exit status 1")
          end)
       {| os_name := "posix"; check_output := check_output demo_world;
          loads_accounts := λ _, inr [];
          loads_describe := loads_describe demo_world;
          get_auth_access_token := get_auth_access_token demo_world;
          from_authorized_user_info := from_authorized_user_info demo_world;
          auth_default := auth_default demo_world; get_cluster := get_cluster demo_world;
          popitem_pick := popitem_pick demo_world; parse_url := parse_url demo_world;
          refresh := refresh demo_world; py_hash := py_hash demo_world;
          authenticator_url := authenticator_url demo_world;
          WIDGET_WIDTH := WIDGET_WIDTH demo_world |}).

(** An instance as [__init__] leaves it on [demo_world] when the account
    [alice@example.com] is selected, before any refresh. *)
Definition demo_instance (c : option Credentials) : GoogleAuth :=
  let accounts : gset string := {["alice@example.com"]} in
  let widgets := get_widgets accounts true (Some "alice@example.com") "800px" in
  {| class_name := "GoogleAuth";
     credentialed_accounts := accounts;
     scopes := default_scopes;
     active_credentials := Some "alice@example.com";
     default_credentials_configured := true;
     credentials := c;
     project := None;
     url := "http://example.com/livy";
     project_widget := widgets_project widgets;
     cluster_name_widget := widgets_cluster_name widgets;
     region_widget := widgets_region widgets;
     google_credentials_widget := widgets_google_credentials widgets |}.

Definition demo_request : Request :=
  {| headers := {["Accept" := "application/json"]}; request_rest := "GET /sessions" |}.

(** A machine on which the credential tool is not installed. *)
Definition toolless_world : World :=
  with_check_output (λ _, inl (MissingBinary "[Errno 2] No such file or directory: 'gcloud'"))
                    demo_world.

Definition demo_credentials : Credentials :=
  fresh_credentials "alice@example.com" default_scopes.

(** What enumeration does and returns on [demo_world]. *)
Definition demo_enumeration_trace : list event :=
  [EvCheckOutput ["gcloud"; "auth"; "list"; "--format"; "json"];
   EvGetAuthAccessToken "alice@example.com";
   EvGetAuthAccessToken "bob@example.com"].
Definition demo_accounts : gset string := {["alice@example.com"]}.

(** A configuration that selects an account the tool does not know. *)
Definition carol_attributes : ParsedAttributes :=
  {| account := "carol@example.com"; attributes_url := "http://example.com/livy" |}.

(** The instance after the user has filled in the three text widgets. *)
Definition fill_widgets (project_id region cluster_name : string) (self : GoogleAuth)
    : GoogleAuth :=
  let fill (value : string) (w : TextWidget) : TextWidget :=
    {| text_description := text_description w; text_width := text_width w;
       text_value := value |} in
  {| class_name := class_name self;
     credentialed_accounts := credentialed_accounts self;
     scopes := scopes self;
     active_credentials := active_credentials self;
     default_credentials_configured := default_credentials_configured self;
     credentials := credentials self;
     project := project self;
     url := url self;
     project_widget := fill project_id (project_widget self);
     cluster_name_widget := fill cluster_name (cluster_name_widget self);
     region_widget := fill region (region_widget self);
     google_credentials_widget := google_credentials_widget self |}.

Definition filled_instance : GoogleAuth :=
  fill_widgets "demo-project" "us-central1" "demo-cluster"
               (demo_instance (Some demo_credentials)).

(** The contract of a construction with an unknown explicit account as the
    specification words it: once enumeration and the probe have computed an
    option set that does not hold the account, construction raises the
    configuration error naming the account, and neither default-credential
    discovery nor the Account-to-Credential Resolver is called at all. *)
Definition unknown_account_contract (W : World) (parsed_attributes : ParsedAttributes)
    : Prop :=
  ∀ t t_probe accounts active configured,
    list_credentialed_accounts W = (t, Return (accounts, active)) →
    application_default_credentials_configured W = (t_probe, Return configured) →
    list_accounts_pairs accounts configured !! account parsed_attributes = None →
    (∃ rest, result (__init__ W (Some parsed_attributes))
             = Raise (Exn BadUserConfigurationException
                          (account parsed_attributes +:+ rest))) ∧
    (∀ scopes, EvAuthDefault scopes ∉ trace (__init__ W (Some parsed_attributes))) ∧
    resolver_not_invoked W (trace (__init__ W (Some parsed_attributes))).

Definition with_loads_describe (f : bytes → string + describe_json) (W : World) : World :=
  {| os_name := os_name W; check_output := check_output W;
     loads_accounts := loads_accounts W; loads_describe := f;
     get_auth_access_token := get_auth_access_token W;
     from_authorized_user_info := from_authorized_user_info W;
     auth_default := auth_default W; get_cluster := get_cluster W;
     popitem_pick := popitem_pick W; parse_url := parse_url W;
     refresh := refresh W; py_hash := py_hash W;
     authenticator_url := authenticator_url W; WIDGET_WIDTH := WIDGET_WIDTH W |}.

(** A machine whose describe command prints an empty JSON array. *)
Definition array_world : World :=
  with_check_output
    (λ command,
       match command with
       | ["gcloud"; "auth"; "list"; "--format"; "json"] => inr "accounts"
       | _ => inr "[]"
       end)
    (with_loads_describe
       (λ output,
          if String.eqb output "[]" then inr (JsonOther "list")
          else inr (JsonObject [("refresh_token", output)]))
       demo_world).

(** ** What the enumeration loop computes, read as list functions *)

(** The probe of one listed account succeeds. *)
Definition token_obtainable (W : World) (entry : account_entry) : bool :=
  match get_auth_access_token W (entry_account entry) with
  | inr _ => true
  | inl _ => false
  end.

(** The listed accounts whose probe succeeds, in listing order. *)
Definition usable_accounts (W : World) (all_accounts : list account_entry) : list string :=
  map entry_account (List.filter (token_obtainable W) all_accounts).

(** The listed accounts whose probe succeeds and whose status is ACTIVE. *)
Definition usable_active_accounts (W : World) (all_accounts : list account_entry)
    : list string :=
  map entry_account
      (List.filter (λ entry, token_obtainable W entry
                             && String.eqb (entry_status entry) "ACTIVE")
                   all_accounts).

(** The events of probing every listed account once, in listing order. *)
Definition probe_events (all_accounts : list account_entry) : list event :=
  map (λ entry, EvGetAuthAccessToken (entry_account entry)) all_accounts.

(** The keys of the account option set of an instance. *)
Definition option_keys (self : GoogleAuth) : gset string :=
  dom (list_accounts_pairs (credentialed_accounts self)
                           (default_credentials_configured self)).

(** The attributes of an instance other than [credentials] and [project]. *)
Definition same_identity (self self' : GoogleAuth) : Prop :=
  class_name self' = class_name self ∧
  credentialed_accounts self' = credentialed_accounts self ∧
  scopes self' = scopes self ∧
  active_credentials self' = active_credentials self ∧
  default_credentials_configured self' = default_credentials_configured self ∧
  url self' = url self ∧
  project_widget self' = project_widget self ∧
  cluster_name_widget self' = cluster_name_widget self ∧
  region_widget self' = region_widget self ∧
  google_credentials_widget self' = google_credentials_widget self.

(** How an instance that [__init__] returned was selected: by
    default-credential discovery, by the resolver for the explicit account,
    by the resolver for the active identity of the tool, or not at all. *)
Inductive selected_by (W : World) (parsed_attributes : option ParsedAttributes)
    (active_user_account : option string) (configured : bool)
    (self : GoogleAuth) : Prop :=
| selected_default (c : Credentials) :
    configured = true →
    (parsed_attributes = None ∨
     ∃ p, parsed_attributes = Some p ∧ account p = "default-credentials") →
    auth_default W default_scopes = Return (Some c, project self) →
    active_credentials self = Some "default-credentials" →
    credentials self = Some c →
    selected_by W parsed_attributes active_user_account configured self
| selected_explicit (p : ParsedAttributes) (c : Credentials) :
    parsed_attributes = Some p →
    ¬ (account p = "default-credentials" ∧ configured = true) →
    result (get_credentials_for_account W (account p) default_scopes) = Return c →
    active_credentials self = Some (account p) →
    credentials self = Some c →
    selected_by W parsed_attributes active_user_account configured self
| selected_active (a : string) (c : Credentials) :
    parsed_attributes = None →
    configured = false →
    active_user_account = Some a →
    result (get_credentials_for_account W a default_scopes) = Return c →
    active_credentials self = Some a →
    credentials self = Some c →
    selected_by W parsed_attributes active_user_account configured self
| selected_none :
    parsed_attributes = None →
    configured = false →
    active_user_account = None →
    active_credentials self = None →
    credentials self = None →
    selected_by W parsed_attributes active_user_account configured self.

(** ** More machines *)

Definition with_os_name (name : string) (W : World) : World :=
  {| os_name := name; check_output := check_output W;
     loads_accounts := loads_accounts W; loads_describe := loads_describe W;
     get_auth_access_token := get_auth_access_token W;
     from_authorized_user_info := from_authorized_user_info W;
     auth_default := auth_default W; get_cluster := get_cluster W;
     popitem_pick := popitem_pick W; parse_url := parse_url W;
     refresh := refresh W; py_hash := py_hash W;
     authenticator_url := authenticator_url W; WIDGET_WIDTH := WIDGET_WIDTH W |}.

Definition with_loads_accounts (f : bytes → string + list account_entry)
    (W : World) : World :=
  {| os_name := os_name W; check_output := check_output W;
     loads_accounts := f; loads_describe := loads_describe W;
     get_auth_access_token := get_auth_access_token W;
     from_authorized_user_info := from_authorized_user_info W;
     auth_default := auth_default W; get_cluster := get_cluster W;
     popitem_pick := popitem_pick W; parse_url := parse_url W;
     refresh := refresh W; py_hash := py_hash W;
     authenticator_url := authenticator_url W; WIDGET_WIDTH := WIDGET_WIDTH W |}.

Definition with_get_auth_access_token (f : string → string + string)
    (W : World) : World :=
  {| os_name := os_name W; check_output := check_output W;
     loads_accounts := loads_accounts W; loads_describe := loads_describe W;
     get_auth_access_token := f;
     from_authorized_user_info := from_authorized_user_info W;
     auth_default := auth_default W; get_cluster := get_cluster W;
     popitem_pick := popitem_pick W; parse_url := parse_url W;
     refresh := refresh W; py_hash := py_hash W;
     authenticator_url := authenticator_url W; WIDGET_WIDTH := WIDGET_WIDTH W |}.

Definition with_get_cluster
    (f : Credentials → string → string → string → string → outcome Cluster)
    (W : World) : World :=
  {| os_name := os_name W; check_output := check_output W;
     loads_accounts := loads_accounts W; loads_describe := loads_describe W;
     get_auth_access_token := get_auth_access_token W;
     from_authorized_user_info := from_authorized_user_info W;
     auth_default := auth_default W; get_cluster := f;
     popitem_pick := popitem_pick W; parse_url := parse_url W;
     refresh := refresh W; py_hash := py_hash W;
     authenticator_url := authenticator_url W; WIDGET_WIDTH := WIDGET_WIDTH W |}.

Definition with_popitem_pick (f : list (string * string) → nat) (W : World) : World :=
  {| os_name := os_name W; check_output := check_output W;
     loads_accounts := loads_accounts W; loads_describe := loads_describe W;
     get_auth_access_token := get_auth_access_token W;
     from_authorized_user_info := from_authorized_user_info W;
     auth_default := auth_default W; get_cluster := get_cluster W;
     popitem_pick := f; parse_url := parse_url W;
     refresh := refresh W; py_hash := py_hash W;
     authenticator_url := authenticator_url W; WIDGET_WIDTH := WIDGET_WIDTH W |}.

(** A Windows machine with the same accounts. *)
Definition windows_world : World :=
  with_check_output
    (λ command,
       match command with
       | ["gcloud.cmd"; "auth"; "list"; "--format"; "json"] => inr "accounts"
       | ["gcloud.cmd"; "auth"; "describe"; account; "--format"; "json"] => inr account
       | _ => inl (MissingBinary "[WinError 2] The system cannot find the file specified")
       end)
    (with_os_name "nt" demo_world).

(** A machine whose tool prints a warning banner instead of JSON. *)
Definition garbled_world : World :=
  with_check_output (λ _, inr "WARNING: Could not setup log file") demo_world.

(** A machine on which the tool lists three accounts, two of them ACTIVE,
    and the access token of the second one cannot be obtained. *)
Definition crowded_world : World :=
  with_get_auth_access_token
    (λ account,
       if String.eqb account "bob@example.com"
       then inl "Failed to obtain access token"
       else inr ("ya29." +:+ account))
    (with_loads_accounts
       (λ _, inr [ {| entry_account := "alice@example.com"; entry_status := "ACTIVE" |};
                   {| entry_account := "bob@example.com"; entry_status := "ACTIVE" |};
                   {| entry_account := "carol@example.com"; entry_status := "ACTIVE" |} ])
       demo_world).

(** The demo machine without default credentials. *)
Definition cli_only_world : World :=
  with_auth_default
    (λ _, Raise (Exn (OtherError "DefaultCredentialsError")
                     "Could not automatically determine credentials."))
    demo_world.

(** A machine whose cluster publishes no HTTP port. *)
Definition portless_world : World :=
  with_get_cluster (λ _ _ _ _ _, Return {| http_ports := [] |}) demo_world.

(** A machine whose cluster publishes two HTTP ports, of which the
    container hands out the second. *)
Definition two_port_world : World :=
  with_popitem_pick
    (λ _, 1)
    (with_get_cluster
       (λ _ _ _ _ _,
          Return {| http_ports := [("Livy", "http://host:1234");
                                   ("Spark History Server", "https://history:18080/ui")] |})
       demo_world).

(** A machine whose control plane denies the request. *)
Definition forbidden_world : World :=
  with_get_cluster
    (λ _ _ _ _ _, Raise (Exn GoogleAPICallError "403 Permission denied on resource project"))
    demo_world.

(** A configuration that selects a known account. *)
Definition alice_attributes : ParsedAttributes :=
  {| account := "alice@example.com"; attributes_url := "http://example.com/livy" |}.

(** The demo instance after the user has picked another entry of the
    dropdown. *)
Definition select_account (selected : option string) (self : GoogleAuth) : GoogleAuth :=
  {| class_name := class_name self;
     credentialed_accounts := credentialed_accounts self;
     scopes := scopes self;
     active_credentials := active_credentials self;
     default_credentials_configured := default_credentials_configured self;
     credentials := credentials self;
     project := project self;
     url := url self;
     project_widget := project_widget self;
     cluster_name_widget := cluster_name_widget self;
     region_widget := region_widget self;
     google_credentials_widget :=
       {| dropdown_options := dropdown_options (google_credentials_widget self);
          dropdown_value := selected;
          dropdown_description := dropdown_description (google_credentials_widget self);
          dropdown_disabled := dropdown_disabled (google_credentials_widget self) |} |}.

(** The instance that [__init__] returns on [cli_only_world] without an
    explicit account (the fallback is never taken there). *)
Definition cli_only_instance : GoogleAuth :=
  match result (__init__ cli_only_world None) with
  | Return self => self
  | Raise _ => demo_instance None
  end.

(** The filled-in demo instance after the user has picked
    [bob@example.com] in the dropdown. *)
Definition reselected_instance : GoogleAuth :=
  select_account (Some "bob@example.com") filled_instance.

(** * Properties *)

(** Unfolding of the two monads. *)
Ltac io_unfold :=
  unfold mbind, mret, IO_bind, IO_ret, Method_bind, Method_ret, method_bind,
    method_ret, method_raise, method_try_except_all, lift_io, get_self, assign,
    io_bind, io_ret, io_raise, try_except, try_except_all, call, pure_call in *.
Arguments isinstance : simpl never.

(** Evaluation of [isinstance] on an exception of a known class. *)
Ltac eval_isinstance :=
  repeat match goal with
  | |- context [isinstance (Exn ?c ?m) ?l] =>
      let b := eval vm_compute in (isinstance (Exn c m) l) in
      change (isinstance (Exn c m) l) with b
  | |- context [isinstance (ExnFrom ?c ?m ?e) ?l] =>
      let b := eval vm_compute in (isinstance (ExnFrom c m e) l) in
      change (isinstance (ExnFrom c m e) l) with b
  end.
Ltac io_simpl := io_unfold; cbn; eval_isinstance; cbn.

(** ** [list_accounts_pairs] *)

Section AccountsPairs.
Implicit Types (A : gset string) (d : bool) (k v : string).

Lemma accounts_fold_lookup A k :
  set_fold (λ account (accounts_dict : gmap string string),
              <[account := account]> accounts_dict) ∅ A !! k
  = if decide (k ∈ A) then Some k else None.
Proof.
  revert A k.
  apply (set_fold_ind_L
           (λ (m : gmap string string) (X : gset string),
              ∀ k, m !! k = if decide (k ∈ X) then Some k else None)).
  - intros k. rewrite lookup_empty.
    rewrite decide_False; [done|]. apply not_elem_of_empty.
  - intros x X m Hx IH k. destruct (decide (x = k)) as [->|Hne].
    + rewrite lookup_insert_eq, decide_True; [done|].
      apply elem_of_union. left. by apply elem_of_singleton.
    + rewrite lookup_insert_ne, IH by done.
      destruct (decide (k ∈ X)) as [Hk|Hk].
      * rewrite decide_True; [done|]. apply elem_of_union. by right.
      * rewrite decide_False; [done|].
        intros [Hin|Hin]%elem_of_union; [|done].
        apply elem_of_singleton in Hin. by subst.
Qed.

Lemma list_accounts_pairs_lookup A d k :
  list_accounts_pairs A d !! k
  = if decide (k ∈ A ∨ (d = true ∧ k = "default-credentials"))
    then Some k else None.
Proof.
  unfold list_accounts_pairs. destruct d.
  - destruct (decide ("default-credentials" = k)) as [<-|Hne].
    + rewrite lookup_insert_eq, decide_True; [done|]. by right.
    + rewrite lookup_insert_ne, accounts_fold_lookup by done.
      destruct (decide (k ∈ A)) as [Hk|Hk].
      * rewrite decide_True; [done|]. by left.
      * rewrite decide_False; [done|]. intros [?|[_ ?]]; [done|]. by subst.
  - rewrite accounts_fold_lookup. destruct (decide (k ∈ A)) as [Hk|Hk].
    + rewrite decide_True; [done|]. by left.
    + rewrite decide_False; [done|]. by intros [?|[? _]].
Qed.

Lemma list_accounts_pairs_dom A d :
  dom (list_accounts_pairs A d)
  = A ∪ (if d then {["default-credentials"]} else ∅).
Proof.
  apply set_eq. intros k.
  rewrite elem_of_dom, list_accounts_pairs_lookup, elem_of_union.
  destruct (decide (k ∈ A ∨ (d = true ∧ k = "default-credentials"))) as [Hk|Hk].
  - split; [intros _ | by eauto].
    destruct Hk as [?|[-> ->]]; [by left|]. right. by apply elem_of_singleton.
  - split; [by intros [? ?]|]. intros [?|Hin]; destruct Hk; [by left|].
    destruct d; [|by apply not_elem_of_empty in Hin].
    apply elem_of_singleton in Hin. by right.
Qed.

Lemma list_accounts_pairs_size A d :
  size (list_accounts_pairs A d)
  = size (A ∪ (if d then {["default-credentials"]} else ∅)).
Proof. by rewrite <- list_accounts_pairs_dom, size_dom. Qed.

(** C5, as amended: for every set of accounts [A] that does not itself
    contain the string "default-credentials" and every boolean [d],
    [list_accounts_pairs A d] binds each account of [A] to itself, has the
    entry "default-credentials" -> "default-credentials" if and only if [d]
    is true, and has size [|A| + (1 if d else 0)]. *)
Theorem list_accounts_pairs_contract A d :
  "default-credentials" ∉ A → accounts_pairs_contract A d.
Proof.
  intros Hfresh. unfold accounts_pairs_contract. cbv zeta. split; [|split].
  - intros a Ha. rewrite list_accounts_pairs_lookup, decide_True; [done|]. by left.
  - rewrite list_accounts_pairs_lookup.
    destruct (decide (_ ∨ _)) as [[?|[? _]]|Hno]; [done|done|].
    split; [done|]. intros ->. destruct Hno. by right.
  - rewrite list_accounts_pairs_size. destruct d.
    + rewrite size_union, size_singleton; [done|].
      intros a Ha ->%elem_of_singleton. done.
    + by rewrite (right_id_L ∅ (∪)), Nat.add_0_r.
Qed.

Lemma list_accounts_pairs_contract_witness :
("default-credentials" ∉ credentialed_accounts (demo_instance None))
  ∧ accounts_pairs_contract (credentialed_accounts (demo_instance None)) true.
Proof.
  assert ("default-credentials" ∉ credentialed_accounts (demo_instance None)) as H.
  { simpl. rewrite elem_of_singleton. discriminate. }
  exact (conj H (list_accounts_pairs_contract _ true H)).
Defined.

(** C5, as stated, fails when the set of accounts already holds the string
    "default-credentials": the entry is not an extra one and the size is
    [|A|], not [|A| + 1]. *)
Lemma list_accounts_pairs_contract_fails :
  ¬ accounts_pairs_contract {["default-credentials"]} true.
Proof.
  intros (_ & _ & Hsize). rewrite list_accounts_pairs_size in Hsize.
  rewrite (idemp_L (∪)) in Hsize. rewrite size_singleton in Hsize. lia.
Qed.

End AccountsPairs.

(** ** [list_credentialed_accounts] *)

Section Enumeration.
Context (W : World).

(** The loop never raises; it adds exactly the listed accounts whose access
    token can be obtained, and only such an account can become active. *)
Lemma for_account_in_spec (all_accounts : list account_entry) :
  ∀ (accounts : gset string) (active : option string),
  ∃ t accounts' active',
    for_account_in W all_accounts accounts active = (t, Return (accounts', active')) ∧
    (∀ a, a ∈ accounts' ↔
          a ∈ accounts ∨
          ∃ entry tok, entry ∈ all_accounts ∧ entry_account entry = a ∧
                       get_auth_access_token W a = inr tok) ∧
    (∀ a, active' = Some a →
          active = Some a ∨
          ∃ entry tok, entry ∈ all_accounts ∧ entry_account entry = a ∧
                       entry_status entry = "ACTIVE" ∧
                       get_auth_access_token W a = inr tok) ∧
    (∀ ev, ev ∈ t → ∃ a, ev = EvGetAuthAccessToken a).
Proof.
  induction all_accounts as [|entry rest IH]; intros accounts active.
  - exists [], accounts, active. split; [done|]. split; [|split].
    + intros a. split; [by left|]. intros [?|(e & ? & He & _)]; [done|].
      by apply elem_of_nil in He.
    + intros a ?. by left.
    + intros ev Hev. by apply elem_of_nil in Hev.
  - cbn [for_account_in]. io_unfold.
    destruct (get_auth_access_token W (entry_account entry)) as [msg|tok] eqn:Htok;
      cbn; eval_isinstance; cbn.
    + destruct (IH accounts active) as (t & accounts' & active' & -> & Hin & Hact & Hev).
      exists (EvGetAuthAccessToken (entry_account entry) :: t), accounts', active'.
      split; [done|]. split; [|split].
      * intros a. rewrite Hin. split.
        -- intros [?|(e & tk & He & ? & ?)]; [by left|].
           right. exists e, tk. rewrite elem_of_cons. eauto.
        -- intros [?|(e & tk & He & Ha & Hk)]; [by left|].
           apply elem_of_cons in He as [->|He]; [congruence|].
           right. by exists e, tk.
      * intros a Ha. destruct (Hact a Ha) as [?|(e & tk & He & ? & ? & ?)]; [by left|].
        right. exists e, tk. rewrite elem_of_cons. eauto.
      * intros ev [->|?]%elem_of_cons; eauto.
    + destruct (IH ({[entry_account entry]} ∪ accounts)
                   (if String.eqb (entry_status entry) "ACTIVE"
                    then Some (entry_account entry) else active))
        as (t & accounts' & active' & -> & Hin & Hact & Hev).
      exists (EvGetAuthAccessToken (entry_account entry) :: t), accounts', active'.
      split; [done|]. split; [|split].
      * intros a. rewrite Hin, elem_of_union, elem_of_singleton. split.
        -- intros [[->|?]|(e & tk & He & ? & ?)].
           ++ right. exists entry, tok. rewrite elem_of_cons. eauto.
           ++ by left.
           ++ right. exists e, tk. rewrite elem_of_cons. eauto.
        -- intros [?|(e & tk & He & Ha & Hk)]; [by left; right|].
           apply elem_of_cons in He as [->|He]; [by left; left|].
           right. by exists e, tk.
      * intros a Ha. destruct (Hact a Ha) as [Hsel|(e & tk & He & ? & ? & ?)].
        -- destruct (String.eqb (entry_status entry) "ACTIVE") eqn:Hstatus; [|by left].
           apply String.eqb_eq in Hstatus. injection Hsel as <-.
           right. exists entry, tok. rewrite elem_of_cons. eauto.
        -- right. exists e, tk. rewrite elem_of_cons. eauto.
      * intros ev [->|?]%elem_of_cons; eauto.
Qed.

Lemma subprocess_exn_caught (f : subprocess_failure) (others : list exn_class) :
  isinstance (subprocess_exn f) (CalledProcessError :: OSError :: others) = true.
Proof. by destruct f. Qed.

(** The four ways a run of [list_credentialed_accounts] can go. *)
Lemma list_credentialed_accounts_failure (f : subprocess_failure) :
  check_output W (list_command W) = inl f →
  list_credentialed_accounts W
  = ([EvCheckOutput (list_command W)],
     Raise (ExnFrom BadUserConfigurationException "Gcloud cannot be invoked."
                    (subprocess_exn f))).
Proof.
  intros Hf. unfold list_credentialed_accounts. fold (list_command W).
  io_unfold. rewrite Hf. cbn. by destruct f.
Qed.

Lemma list_credentialed_accounts_malformed (output : bytes) (message : string) :
  check_output W (list_command W) = inr output →
  loads_accounts W output = inl message →
  list_credentialed_accounts W
  = ([EvCheckOutput (list_command W)], Raise (Exn JSONDecodeError message)).
Proof.
  intros Hout Hjson. unfold list_credentialed_accounts. fold (list_command W).
  io_unfold. rewrite Hout. cbn. rewrite Hjson. cbn. by eval_isinstance.
Qed.

Lemma list_credentialed_accounts_listed (output : bytes) (all_accounts : list account_entry) :
  check_output W (list_command W) = inr output →
  loads_accounts W output = inr all_accounts →
  ∃ t accounts active,
    for_account_in W all_accounts ∅ None = (t, Return (accounts, active)) ∧
    list_credentialed_accounts W
    = (EvCheckOutput (list_command W) :: t, Return (accounts, active)).
Proof.
  intros Hout Hjson.
  destruct (for_account_in_spec all_accounts ∅ None) as (t & accounts & active & Hrun & _).
  exists t, accounts, active. split; [done|].
  unfold list_credentialed_accounts. fold (list_command W).
  io_unfold. rewrite Hout. cbn. rewrite Hjson. cbn. by rewrite Hrun.
Qed.

(** Whatever the run, enumeration only runs the list command and probes
    access tokens. *)
Lemma list_credentialed_accounts_trace (ev : event) :
  ev ∈ trace (list_credentialed_accounts W) →
  ev = EvCheckOutput (list_command W) ∨ ∃ a, ev = EvGetAuthAccessToken a.
Proof.
  destruct (check_output W (list_command W)) as [f|output] eqn:Hout.
  { rewrite (list_credentialed_accounts_failure f Hout). cbn.
    intros ->%list_elem_of_singleton. by left. }
  destruct (loads_accounts W output) as [message|all_accounts] eqn:Hjson.
  { rewrite (list_credentialed_accounts_malformed output message Hout Hjson). cbn.
    intros ->%list_elem_of_singleton. by left. }
  destruct (list_credentialed_accounts_listed output all_accounts Hout Hjson)
    as (t & accounts & active & Hrun & ->). cbn.
  destruct (for_account_in_spec all_accounts ∅ None)
    as (t' & accounts' & active' & Hrun' & _ & _ & Hev).
  rewrite Hrun in Hrun'. injection Hrun' as <- <- <-.
  intros [->|Hin]%elem_of_cons; [by left | right; by apply Hev].
Qed.

End Enumeration.

(** C3: [list_credentialed_accounts] raises the configuration error exactly
    when the invocation of the credential tool fails (non-zero exit, missing
    binary, I/O failure), and then the error wraps that failure as its cause.
    A failure to obtain the access token of one account is never raised:
    once the tool has answered with a list, the function returns, the
    returned set holds exactly the listed accounts whose token could be
    obtained, and an account whose token could not be obtained is neither in
    the set nor the active identity. *)
Theorem list_credentialed_accounts_errors (W : World) :
  ((∃ e, result (list_credentialed_accounts W) = Raise e ∧
         exn_cls e = BadUserConfigurationException)
   ↔ ∃ f, check_output W (list_command W) = inl f) ∧
  (∀ f, check_output W (list_command W) = inl f →
        result (list_credentialed_accounts W)
        = Raise (ExnFrom BadUserConfigurationException "Gcloud cannot be invoked."
                         (subprocess_exn f))) ∧
  (∀ e, result (list_credentialed_accounts W) = Raise e →
        exn_cls e ≠ UserAccessTokenError) ∧
  (∀ output all_accounts,
      check_output W (list_command W) = inr output →
      loads_accounts W output = inr all_accounts →
      ∃ accounts active,
        result (list_credentialed_accounts W) = Return (accounts, active) ∧
        (∀ a, a ∈ accounts ↔
              ∃ entry tok, entry ∈ all_accounts ∧ entry_account entry = a ∧
                           get_auth_access_token W a = inr tok) ∧
        (∀ a message, get_auth_access_token W a = inl message →
                      (a ∉ accounts) ∧ active ≠ Some a)).
Proof.
  split; [|split; [|split]].
  - split.
    + intros (e & Hraise & Hcls).
      destruct (check_output W (list_command W)) as [f|output] eqn:Hout; [by exists f|].
      exfalso. destruct (loads_accounts W output) as [message|all_accounts] eqn:Hjson.
      * rewrite (list_credentialed_accounts_malformed W output message Hout Hjson) in Hraise.
        cbn in Hraise. injection Hraise as <-. discriminate.
      * destruct (list_credentialed_accounts_listed W output all_accounts Hout Hjson)
          as (t & accounts & active & _ & Hrun).
        rewrite Hrun in Hraise. discriminate.
    + intros (f & Hout). eexists.
      split; [rewrite (list_credentialed_accounts_failure W f Hout)|]; reflexivity.
  - intros f Hout. by rewrite (list_credentialed_accounts_failure W f Hout).
  - intros e Hraise.
    destruct (check_output W (list_command W)) as [f|output] eqn:Hout.
    { rewrite (list_credentialed_accounts_failure W f Hout) in Hraise.
      cbn in Hraise. injection Hraise as <-. discriminate. }
    destruct (loads_accounts W output) as [message|all_accounts] eqn:Hjson.
    + rewrite (list_credentialed_accounts_malformed W output message Hout Hjson) in Hraise.
      cbn in Hraise. injection Hraise as <-. discriminate.
    + destruct (list_credentialed_accounts_listed W output all_accounts Hout Hjson)
        as (t & accounts & active & _ & Hrun).
      rewrite Hrun in Hraise. discriminate.
  - intros output all_accounts Hout Hjson.
    destruct (list_credentialed_accounts_listed W output all_accounts Hout Hjson)
      as (t & accounts & active & Hloop & Hrun).
    destruct (for_account_in_spec W all_accounts ∅ None)
      as (t' & accounts' & active' & Hloop' & Hin & Hact & _).
    rewrite Hloop in Hloop'. injection Hloop' as <- <- <-.
    exists accounts, active. split; [by rewrite Hrun|]. split.
    + intros a. rewrite Hin. split; [|by right].
      intros [Hempty|?]; [|done]. by apply not_elem_of_empty in Hempty.
    + intros a message Hfail. split.
      * rewrite Hin. intros [Hempty|(? & tok & _ & _ & Htok)].
        -- by apply not_elem_of_empty in Hempty.
        -- congruence.
      * intros Ha. destruct (Hact a Ha) as [?|(? & tok & _ & _ & _ & Htok)]; congruence.
Qed.

(** ** [get_credentials_for_account] *)

Section Resolver.
Context (W : World) (account : string) (scopes_list : list string).

Lemma get_credentials_for_account_tool_failure (f : subprocess_failure) :
  check_output W (describe_command W account) = inl f →
  get_credentials_for_account W account scopes_list
  = ([EvCheckOutput (describe_command W account)], Raise (ExnFrom UserAccessTokenError
              ("Could not obtain access token for " +:+ account)
              (subprocess_exn f))).
Proof.
  intros Hf. unfold get_credentials_for_account. fold (describe_command W account).
  io_unfold. rewrite Hf. cbn. by destruct f.
Qed.

Lemma get_credentials_for_account_malformed (output : bytes) (message : string) :
  check_output W (describe_command W account) = inr output →
  loads_describe W output = inl message →
  get_credentials_for_account W account scopes_list
  = ([EvCheckOutput (describe_command W account)],
     Raise (ExnFrom UserAccessTokenError
              ("Could not obtain access token for " +:+ account)
              (Exn JSONDecodeError message))).
Proof.
  intros Hout Hjson. unfold get_credentials_for_account.
  fold (describe_command W account).
  io_unfold. rewrite Hout. cbn. rewrite Hjson. cbn. by eval_isinstance.
Qed.

Lemma get_credentials_for_account_mismatch (output : bytes)
    (info : account_describe) (message : string) :
  check_output W (describe_command W account) = inr output →
  loads_describe W output = inr (JsonObject info) →
  from_authorized_user_info W info scopes_list = inl message →
  get_credentials_for_account W account scopes_list
  = ([EvCheckOutput (describe_command W account)],
     Raise (ExnFrom UserAccessTokenError
              ("Could not obtain access token for " +:+ account)
              (Exn ValueError message))).
Proof.
  intros Hout Hjson Hinfo. unfold get_credentials_for_account.
  fold (describe_command W account).
  io_unfold. rewrite Hout. cbn. rewrite Hjson. cbn. rewrite Hinfo. cbn.
  by eval_isinstance.
Qed.

Lemma get_credentials_for_account_success (output : bytes)
    (info : account_describe) (c : Credentials) :
  check_output W (describe_command W account) = inr output →
  loads_describe W output = inr (JsonObject info) →
  from_authorized_user_info W info scopes_list = inr c →
  get_credentials_for_account W account scopes_list
  = ([EvCheckOutput (describe_command W account)], Return c).
Proof.
  intros Hout Hjson Hinfo. unfold get_credentials_for_account.
  fold (describe_command W account).
  io_unfold. rewrite Hout. cbn. rewrite Hjson. cbn. by rewrite Hinfo.
Qed.

(** The output parses, but not to a JSON object: the [AttributeError] of
    the class method is in none of the classes of the [except] clause. *)
Lemma get_credentials_for_account_not_object (output : bytes) (python_type : string) :
  check_output W (describe_command W account) = inr output →
  loads_describe W output = inr (JsonOther python_type) →
  get_credentials_for_account W account scopes_list
  = ([EvCheckOutput (describe_command W account)],
     Raise (Exn AttributeError
              ("'" +:+ python_type +:+ "' object has no attribute 'keys'"))).
Proof.
  intros Hout Hjson. unfold get_credentials_for_account.
  fold (describe_command W account).
  io_unfold. rewrite Hout. cbn. rewrite Hjson. cbn. by eval_isinstance.
Qed.

(** The resolver runs the describe command, once, and nothing else. *)
Lemma get_credentials_for_account_trace :
  trace (get_credentials_for_account W account scopes_list)
  = [EvCheckOutput (describe_command W account)].
Proof.
  destruct (check_output W (describe_command W account)) as [f|output] eqn:Hout.
  { by rewrite (get_credentials_for_account_tool_failure f Hout). }
  destruct (loads_describe W output) as [message|[info|python_type]] eqn:Hjson.
  { by rewrite (get_credentials_for_account_malformed output message Hout Hjson). }
  - destruct (from_authorized_user_info W info scopes_list) as [message|c] eqn:Hinfo.
    + by rewrite (get_credentials_for_account_mismatch output info message
                    Hout Hjson Hinfo).
    + by rewrite (get_credentials_for_account_success output info c Hout Hjson Hinfo).
  - by rewrite (get_credentials_for_account_not_object output python_type Hout Hjson).
Qed.

(** C7, which the code does not meet: [get_credentials_for_account] raises
    the access-token error, with the same message, when the tool invocation
    fails, when its output is not parseable JSON and when the parsed JSON
    object is not an authorized-user record; but when the output parses to a
    JSON value that is not an object the [AttributeError] of
    [Credentials.from_authorized_user_info] passes the [except] clause and
    reaches the caller as it is, neither wrapped nor of the access-token
    kind.  These two kinds are all the function ever raises. *)
Theorem get_credentials_for_account_error_kinds :
  (∀ f, check_output W (describe_command W account) = inl f →
        result (get_credentials_for_account W account scopes_list)
        = Raise (ExnFrom UserAccessTokenError
              ("Could not obtain access token for " +:+ account)
              (subprocess_exn f))) ∧
  (∀ output message,
      check_output W (describe_command W account) = inr output →
      loads_describe W output = inl message →
      result (get_credentials_for_account W account scopes_list)
      = Raise (ExnFrom UserAccessTokenError
              ("Could not obtain access token for " +:+ account)
              (Exn JSONDecodeError message))) ∧
  (∀ output info message,
      check_output W (describe_command W account) = inr output →
      loads_describe W output = inr (JsonObject info) →
      from_authorized_user_info W info scopes_list = inl message →
      result (get_credentials_for_account W account scopes_list)
      = Raise (ExnFrom UserAccessTokenError
              ("Could not obtain access token for " +:+ account)
              (Exn ValueError message))) ∧
  (∀ output python_type,
      check_output W (describe_command W account) = inr output →
      loads_describe W output = inr (JsonOther python_type) →
      result (get_credentials_for_account W account scopes_list)
      = Raise (Exn AttributeError
                 ("'" +:+ python_type +:+ "' object has no attribute 'keys'"))) ∧
  (∀ e, result (get_credentials_for_account W account scopes_list) = Raise e →
        (exn_cls e = UserAccessTokenError ∧
         exn_message e = "Could not obtain access token for " +:+ account)
        ∨ (exn_cls e = AttributeError ∧ exn_cause e = None ∧
           ∃ output python_type,
             check_output W (describe_command W account) = inr output ∧
             loads_describe W output = inr (JsonOther python_type))).
Proof.
  split; [|split; [|split; [|split]]].
  - intros f Hf. by rewrite (get_credentials_for_account_tool_failure f Hf).
  - intros output message Hout Hjson.
    by rewrite (get_credentials_for_account_malformed output message Hout Hjson).
  - intros output info message Hout Hjson Hinfo.
    by rewrite (get_credentials_for_account_mismatch output info message Hout Hjson Hinfo).
  - intros output python_type Hout Hjson.
    by rewrite (get_credentials_for_account_not_object output python_type Hout Hjson).
  - intros e.
    destruct (check_output W (describe_command W account)) as [f|output] eqn:Hout.
    { rewrite (get_credentials_for_account_tool_failure f Hout). cbn.
      intros [= <-]. by left. }
    destruct (loads_describe W output) as [message|[info|python_type]] eqn:Hjson.
    { rewrite (get_credentials_for_account_malformed output message Hout Hjson). cbn.
      intros [= <-]. by left. }
    + destruct (from_authorized_user_info W info scopes_list) as [message|c] eqn:Hinfo.
      * rewrite (get_credentials_for_account_mismatch output info message
                   Hout Hjson Hinfo).
        cbn. intros [= <-]. by left.
      * rewrite (get_credentials_for_account_success output info c Hout Hjson Hinfo).
        discriminate.
    + rewrite (get_credentials_for_account_not_object output python_type Hout Hjson).
      cbn. intros [= <-]. right. repeat (split; [done|]). by exists output, python_type.
Qed.

End Resolver.

(** ** [get_component_gateway_url] *)

Section Endpoint.
Context (W : World) (project_id region cluster_name : string) (credentials : Credentials).

Lemma get_component_gateway_url_trace :
  trace (get_component_gateway_url W project_id region cluster_name credentials)
  = [EvGetCluster (region +:+ "-dataproc.googleapis.com:443")
                  project_id region cluster_name].
Proof.
  unfold get_component_gateway_url, popitem. io_unfold.
  destruct (get_cluster W credentials _ project_id region cluster_name) as [[ports]|e];
    cbn; [|done].
  destruct ports as [|first rest]; cbn; [done|].
  by destruct (parse_url W _).
Qed.

Lemma popitem_single (name port_url : string) :
  popitem W [(name, port_url)] = ([], Return (name, port_url)).
Proof.
  unfold popitem. io_unfold. by destruct (popitem_pick W _) as [|[|?]].
Qed.

(** A cluster that publishes one port: the resolver returns the scheme and
    the network location of that port's URL before the fixed suffix. *)
Lemma get_component_gateway_url_single (name port_url : string) (parsed_uri : Url) :
  get_cluster W credentials (region +:+ "-dataproc.googleapis.com:443")
              project_id region cluster_name
  = Return {| http_ports := [(name, port_url)] |} →
  parse_url W port_url = Return parsed_uri →
  result (get_component_gateway_url W project_id region cluster_name credentials)
  = Return ((format_str (scheme parsed_uri) +:+ "://"
             +:+ format_str (netloc parsed_uri) +:+ "/")
            +:+ "gateway/default/livy/v1").
Proof.
  intros Hcluster Hparse. unfold get_component_gateway_url. io_unfold.
  rewrite Hcluster. cbn [http_ports].
  rewrite popitem_single. cbn. by rewrite Hparse.
Qed.

(** The resolver re-raises what the control plane or the URL parser raise. *)
Lemma get_component_gateway_url_propagates (e : exn) :
  get_cluster W credentials (region +:+ "-dataproc.googleapis.com:443")
              project_id region cluster_name = Raise e →
  result (get_component_gateway_url W project_id region cluster_name credentials)
  = Raise e.
Proof.
  intros Hcluster. unfold get_component_gateway_url. io_unfold.
  by rewrite Hcluster.
Qed.

(** C6: for every cluster description whose endpoint configuration holds
    exactly one HTTP port entry, [get_component_gateway_url] returns the
    scheme and the network location that the URL parser reads from that
    entry's URL, joined by "://" and followed by the fixed path
    "/gateway/default/livy/v1"; so for the entry "Livy" ->
    "http://host:1234", which is read as scheme "http" and network location
    "host:1234", it returns "http://host:1234/gateway/default/livy/v1". *)
Theorem get_component_gateway_url_single_port (name port_url : string)
    (parsed_uri : Url) :
  get_cluster W credentials (region +:+ "-dataproc.googleapis.com:443")
              project_id region cluster_name
  = Return {| http_ports := [(name, port_url)] |} →
  parse_url W port_url = Return parsed_uri →
  result (get_component_gateway_url W project_id region cluster_name credentials)
  = Return ((format_str (scheme parsed_uri) +:+ "://"
             +:+ format_str (netloc parsed_uri) +:+ "/")
            +:+ "gateway/default/livy/v1") ∧
  (name = "Livy" →
   port_url = "http://host:1234" →
   parsed_uri = {| scheme := Some "http"; netloc := Some "host:1234" |} →
   result (get_component_gateway_url W project_id region cluster_name credentials)
   = Return "http://host:1234/gateway/default/livy/v1").
Proof.
  intros Hcluster Hparse.
  pose proof (get_component_gateway_url_single name port_url parsed_uri Hcluster Hparse)
    as Hrun.
  split; [exact Hrun|]. intros _ _ ->. by rewrite Hrun.
Qed.

End Endpoint.

Lemma get_component_gateway_url_single_port_witness :
  result (get_component_gateway_url demo_world "demo-project" "us-central1" "demo-cluster"
            (fresh_credentials "application-default" default_scopes))
  = Return "http://host:1234/gateway/default/livy/v1".
Proof.
  exact (proj2 (get_component_gateway_url_single_port demo_world "demo-project"
                  "us-central1" "demo-cluster"
                  (fresh_credentials "application-default" default_scopes)
                  "Livy" "http://host:1234"
                  {| scheme := Some "http"; netloc := Some "host:1234" |}
                  eq_refl eq_refl)
           eq_refl eq_refl eq_refl).
Defined.

(** ** [GoogleAuth.__init__] *)

Section Construction.
Context (W : World).

(** The probe makes one discovery call and never raises. *)
Lemma application_default_credentials_configured_run :
  ∃ configured,
    application_default_credentials_configured W
    = ([EvAuthDefault default_scopes], Return configured) ∧
    (configured = true ↔
     ∃ c p, auth_default W default_scopes = Return (Some c, p)).
Proof.
  unfold application_default_credentials_configured. io_unfold.
  destruct (auth_default W default_scopes) as [[[c|] p]|e]; cbn.
  - exists true. split; [done|]. split; [by eauto|done].
  - exists false. split; [done|]. split; [done|]. by intros (? & ? & ?).
  - exists false. split; [done|]. split; [done|]. by intros (? & ? & ?).
Qed.

Lemma describe_command_not_list (a : string) :
  describe_command W a ≠ list_command W.
Proof. unfold describe_command, list_command. intros [= ? ?]. Qed.

(** Enumeration does not run the describe command, and discovery calls
    are not runs of it either. *)
Lemma enumeration_does_not_resolve (t : list event)
    (o : outcome (gset string * option string)) :
  list_credentialed_accounts W = (t, o) → resolver_not_invoked W t.
Proof.
  intros Henum a Hin.
  destruct (list_credentialed_accounts_trace W (EvCheckOutput (describe_command W a)))
    as [Heq|(? & Heq)].
  - by rewrite Henum.
  - apply (describe_command_not_list a). congruence.
  - discriminate.
Qed.

Lemma resolver_not_invoked_app (t t' : list event) :
  resolver_not_invoked W t →
  (∀ ev, ev ∈ t' → ∃ scopes, ev = EvAuthDefault scopes) →
  resolver_not_invoked W (t ++ t').
Proof.
  intros Ht Ht' a [Hin|Hin]%elem_of_app; [by apply (Ht a)|].
  by destruct (Ht' _ Hin) as (? & ?).
Qed.

Lemma probe_trace (t_probe : list event) (configured : outcome bool) :
  application_default_credentials_configured W = (t_probe, configured) →
  t_probe = [EvAuthDefault default_scopes].
Proof.
  destruct application_default_credentials_configured_run as (b & Hrun & _).
  rewrite Hrun. by intros [= <- _].
Qed.

(** Enumeration makes no discovery call. *)
Lemma enumeration_does_not_discover (t : list event)
    (o : outcome (gset string * option string)) (scopes : list string) :
  list_credentialed_accounts W = (t, o) → EvAuthDefault scopes ∉ t.
Proof.
  intros Henum Hin.
  destruct (list_credentialed_accounts_trace W (EvAuthDefault scopes))
    as [Heq|(? & Heq)]; [by rewrite Henum | discriminate | discriminate].
Qed.

(** C2, as amended: when the explicit account parameter is not a key of the
    computed account option set, construction raises the configuration
    error whose message starts with the invalid account, and no call is made
    once the option set is computed: the Account-to-Credential Resolver is
    never invoked, and the one default-credential discovery call of the
    construction is the call of the probe that computed the option set,
    made after the enumeration and before the account is looked up. *)
Theorem init_rejects_unknown_account (parsed_attributes : ParsedAttributes)
    (t t_probe : list event) (accounts : gset string) (active : option string)
    (configured : bool) :
  list_credentialed_accounts W = (t, Return (accounts, active)) →
  application_default_credentials_configured W = (t_probe, Return configured) →
  list_accounts_pairs accounts configured !! account parsed_attributes = None →
  __init__ W (Some parsed_attributes)
  = (t ++ t_probe,
     Raise (Exn BadUserConfigurationException
                (account parsed_attributes
                 +:+ " is not a credentialed account. Run `gcloud auth login` in "
                 +:+ "your command line to authorize gcloud to access the Cloud Platform with Google user "
                 +:+ "credentials to authenticate. Run `gcloud auth application-default login` acquire new "
                 +:+ "user credentials to use for Application Default Credentials. Run `gcloud auth list` to see "
                 +:+ "your credentialed accounts."))) ∧
  t_probe = [EvAuthDefault default_scopes] ∧
  (∀ scopes, EvAuthDefault scopes ∉ t) ∧
  resolver_not_invoked W (trace (__init__ W (Some parsed_attributes))).
Proof.
  intros Henum Hprobe Hmissing.
  assert (__init__ W (Some parsed_attributes)
          = (t ++ t_probe,
             Raise (Exn BadUserConfigurationException
                        (not_credentialed_message (account parsed_attributes)))))
    as Hrun.
  { unfold __init__. io_unfold. rewrite Henum. cbn.
    rewrite Hprobe. cbn. rewrite Hmissing.
    rewrite bool_decide_eq_false_2 by (by intros [? ?]).
    cbn. by rewrite !app_nil_r. }
  split; [exact Hrun|]. split; [by apply (probe_trace _ _ Hprobe)|].
  split; [intros scopes; by apply (enumeration_does_not_discover t _ scopes Henum)|].
  rewrite Hrun. cbn.
  apply resolver_not_invoked_app; [by eapply enumeration_does_not_resolve|].
  rewrite (probe_trace _ _ Hprobe). intros ev ->%list_elem_of_singleton. eauto.
Qed.

(** C4, as amended: with no explicit account parameter, once the account
    enumeration has returned, and with default credentials configured,
    construction makes "default-credentials" the active identity and takes
    the credentials from default-credential discovery; the
    Account-to-Credential Resolver is not invoked. *)
Theorem init_selects_default_credentials (t : list event)
    (accounts : gset string) (active : option string)
    (c : Credentials) (p : option string) :
  list_credentialed_accounts W = (t, Return (accounts, active)) →
  auth_default W default_scopes = Return (Some c, p) →
  ∃ self,
    __init__ W None
    = (t ++ [EvAuthDefault default_scopes; EvAuthDefault default_scopes], Return self) ∧
    active_credentials self = Some "default-credentials" ∧
    credentials self = Some c ∧
    project self = p ∧
    resolver_not_invoked W (trace (__init__ W None)).
Proof.
  intros Henum Hdefault.
  assert (application_default_credentials_configured W
          = ([EvAuthDefault default_scopes], Return true)) as Hprobe.
  { unfold application_default_credentials_configured. io_unfold. by rewrite Hdefault. }
  assert (∃ self, __init__ W None
                  = (t ++ [EvAuthDefault default_scopes; EvAuthDefault default_scopes],
                     Return self) ∧
                  active_credentials self = Some "default-credentials" ∧
                  credentials self = Some c ∧ project self = p)
    as (self & Hinit & ? & ? & ?).
  { unfold __init__. io_unfold. rewrite Henum. cbn.
    rewrite Hprobe. cbn. rewrite Hdefault. cbn. eexists. split; [reflexivity|]. done. }
  exists self. repeat (split; [done|]). rewrite Hinit.
  apply resolver_not_invoked_app; [by eapply enumeration_does_not_resolve|].
  intros ev Hin. apply elem_of_cons in Hin as [->|Hin]; [by eauto|].
  apply list_elem_of_singleton in Hin as ->. eauto.
Qed.

(** ** [GoogleAuth.__call__] on an instance without credentials *)

Lemma call_without_credentials_raises (self : GoogleAuth) (request : Request) :
  credentials self = None →
  __call__ W request self
  = ([], self, Raise (Exn AttributeError "'NoneType' object has no attribute 'valid'")).
Proof. intros Hnone. unfold __call__. io_unfold. by rewrite Hnone. Qed.

(** C10: when construction found no explicit account, no default
    credentials and no active identity in the tool, it returns an instance
    whose credentials are null, and the per-request callable on that
    instance raises an attribute error for the null credentials object, not
    the configuration error of the module: the callable has no guard. *)
Theorem call_on_unselected_instance (t t_probe : list event)
    (accounts : gset string) (request : Request) :
  list_credentialed_accounts W = (t, Return (accounts, None)) →
  application_default_credentials_configured W = (t_probe, Return false) →
  ∃ self e,
    __init__ W None = (t ++ t_probe, Return self) ∧
    credentials self = None ∧
    active_credentials self = None ∧
    __call__ W request self = ([], self, Raise e) ∧
    exn_cls e = AttributeError ∧
    exn_cls e ≠ BadUserConfigurationException.
Proof.
  intros Henum Hprobe.
  assert (∃ self, __init__ W None = (t ++ t_probe, Return self) ∧
                  credentials self = None ∧ active_credentials self = None)
    as (self & Hinit & Hnone & ?).
  { unfold __init__. io_unfold. rewrite Henum. cbn.
    rewrite Hprobe. cbn. rewrite !app_nil_r. eexists. split; [reflexivity|]. done. }
  exists self. eexists. split; [done|]. split; [done|]. split; [done|].
  split; [by apply call_without_credentials_raises|]. done.
Qed.

End Construction.

(** ** [GoogleAuth.__call__] *)

Section Methods.
Context (W : World).

Lemma call_with_valid_credentials (self : GoogleAuth) (request : Request)
    (c : Credentials) :
  credentials self = Some c → valid c = true →
  __call__ W request self
  = ([], self, Return (set_header "Authorization" (bearer c) request)).
Proof.
  intros Hc Hvalid. unfold __call__, bearer. io_unfold. rewrite Hc, Hvalid. done.
Qed.

Lemma call_with_refreshed_credentials (self : GoogleAuth) (request : Request)
    (c c' : Credentials) :
  credentials self = Some c → valid c = false → refresh W c = Return c' →
  __call__ W request self
  = ([EvRefresh c], set_credentials (Some c') self,
     Return (set_header "Authorization" (bearer c') request)).
Proof.
  intros Hc Hvalid Hrefresh. unfold __call__, bearer. io_unfold.
  rewrite Hc, Hvalid. cbn. rewrite Hrefresh. done.
Qed.

Lemma call_with_failing_refresh (self : GoogleAuth) (request : Request)
    (c : Credentials) (e : exn) :
  credentials self = Some c → valid c = false → refresh W c = Raise e →
  __call__ W request self = ([EvRefresh c], self, Raise e).
Proof.
  intros Hc Hvalid Hrefresh. unfold __call__. io_unfold.
  rewrite Hc, Hvalid. cbn. rewrite Hrefresh. done.
Qed.

(** C1, as amended: for every invocation of the per-request callable with
    non-null credentials, one refresh call is made when the credentials
    report invalid and none when they report valid; unless that refresh
    call raises, the callable returns the request, otherwise unchanged, with
    "Authorization" bound to "Bearer " followed by the token of the
    (possibly refreshed) credentials, which the instance now holds; when the
    refresh call raises, its exception propagates unchanged and the
    instance keeps its credentials. *)
Theorem call_attaches_bearer_token (self : GoogleAuth) (request : Request)
    (c : Credentials) :
  credentials self = Some c →
  ∃ t self' o,
    __call__ W request self = (t, self', o) ∧
    t = (if valid c then [] else [EvRefresh c]) ∧
    refresh_calls t = (if valid c then 0 else 1) ∧
    match (if valid c then Return c else refresh W c) with
    | Return c' =>
        credentials self' = Some c' ∧
        ∃ request',
          o = Return request' ∧
          headers request' !! "Authorization" = Some ("Bearer " +:+ format_str (token c')) ∧
          (∀ key, key ≠ "Authorization" → headers request' !! key = headers request !! key) ∧
          request_rest request' = request_rest request
    | Raise e => o = Raise e ∧ self' = self
    end.
Proof.
  intros Hc. destruct (valid c) eqn:Hvalid.
  - eexists _, _, _. split; [by apply call_with_valid_credentials|].
    split; [done|]. split; [done|]. split; [done|].
    eexists. split; [done|]. cbn. split; [by rewrite lookup_insert_eq|].
    split; [|done]. intros key Hkey. by rewrite lookup_insert_ne.
  - destruct (refresh W c) as [c'|e] eqn:Hrefresh.
    + eexists _, _, _. split; [by apply call_with_refreshed_credentials|].
      split; [done|]. split; [done|]. split; [done|].
      eexists. split; [done|]. cbn. split; [by rewrite lookup_insert_eq|].
      split; [|done]. intros key Hkey. by rewrite lookup_insert_ne.
    + eexists _, _, _. split; [by apply call_with_failing_refresh|]. done.
Qed.

(** ** [GoogleAuth.update_with_widget_values] *)

(** Re-selection assigns [credentials] and [project], never [url]. *)
Lemma initialize_credentials_keeps_url (selected : option string) (self : GoogleAuth) :
  url (initialize_credentials_with_auth_account_selection W selected self).1.2 = url self.
Proof.
  unfold initialize_credentials_with_auth_account_selection. io_unfold.
  case_bool_decide; [|done]. case_bool_decide.
  - by destruct (auth_default W (scopes self)) as [[? ?]|?].
  - destruct selected as [a|]; [|done].
    by destruct (get_credentials_for_account W a (scopes self)) as [? [?|?]].
Qed.

(** C8: on an instance whose credentials are null,
    [update_with_widget_values] raises the configuration error that tells
    the user to run the login command, calls nothing (the Endpoint Resolver
    is not invoked) and leaves the instance, hence the stored gateway URL,
    as it was.  With non-null credentials the Endpoint Resolver is called
    first, with the values of the project, region and cluster widgets and
    these credentials; the URL it returns is stored as the gateway URL
    (whatever re-selection does next), and an exception it raises
    propagates unchanged with the instance untouched. *)
Theorem update_with_widget_values_endpoint (self : GoogleAuth) :
  (credentials self = None →
   update_with_widget_values W self
   = ([], self,
      Raise (Exn BadUserConfigurationException
                 ("Failed to obtain access token. Run `gcloud auth login` in your command line "
                  +:+ "to authorize gcloud to access the Cloud Platform with Google user credentials to "
                  +:+ "authenticate. Run `gcloud auth application-default login` acquire new user "
                  +:+ "credentials to use for Application Default Credentials."))) ∧
   endpoint_resolver_not_invoked (update_with_widget_values W self).1.1 ∧
   url (update_with_widget_values W self).1.2 = url self) ∧
  (∀ c, credentials self = Some c →
     let resolver :=
       get_component_gateway_url W (text_value (project_widget self))
         (text_value (region_widget self)) (text_value (cluster_name_widget self)) c in
     trace resolver
     = [EvGetCluster (text_value (region_widget self) +:+ "-dataproc.googleapis.com:443")
                     (text_value (project_widget self))
                     (text_value (region_widget self))
                     (text_value (cluster_name_widget self))] ∧
     match result resolver with
     | Return gateway =>
         ∃ t' self' o,
           update_with_widget_values W self = (trace resolver ++ t', self', o) ∧
           url self' = gateway
     | Raise e =>
         update_with_widget_values W self = (trace resolver, self, Raise e)
     end).
Proof.
  split.
  - intros Hnone.
    assert (update_with_widget_values W self
            = ([], self, Raise (Exn BadUserConfigurationException no_credentials_message)))
      as Hrun.
    { unfold update_with_widget_values. io_unfold. by rewrite Hnone. }
    split; [exact Hrun|]. rewrite Hrun. cbn. split; [|done].
    intros ? ? ? ? Hin. by apply elem_of_nil in Hin.
  - intros c Hc resolver. split; [apply get_component_gateway_url_trace|].
    unfold update_with_widget_values. io_unfold. rewrite Hc. fold resolver.
    destruct resolver as [t [gateway|e]]; cbn; [|by rewrite app_nil_r].
    pose proof (initialize_credentials_keeps_url
                  (dropdown_value (google_credentials_widget self))
                  (set_url gateway self)) as Hurl.
    cbn [google_credentials_widget set_url].
    destruct (initialize_credentials_with_auth_account_selection W _ _)
      as [[t' self'] o]. cbn in Hurl.
    exists t', self', o. by rewrite app_nil_r.
Qed.

(** ** [GoogleAuth.__hash__] *)

(** C9: the hash of an instance is the hash of the triple of its active
    identity, its gateway URL and the name of its class; two instances that
    agree on the three hash equally, whatever the rest of their state. *)
Theorem hash_of_identity_url_class (self other : GoogleAuth) :
  __hash__ W self = py_hash W (active_credentials self, url self, class_name self) ∧
  (active_credentials self = active_credentials other →
   url self = url other →
   class_name self = class_name other →
   __hash__ W self = __hash__ W other).
Proof.
  split; [done|]. unfold __hash__. by intros -> -> ->.
Qed.

End Methods.

(** * The theorems at work on concrete machines *)

Lemma list_credentialed_accounts_errors_witness :
  result (list_credentialed_accounts toolless_world)
  = Raise (ExnFrom BadUserConfigurationException "Gcloud cannot be invoked."
             (Exn FileNotFoundError "[Errno 2] No such file or directory: 'gcloud'")) ∧
  ∃ accounts active,
    result (list_credentialed_accounts demo_world) = Return (accounts, active) ∧
    (∀ a, a ∈ accounts ↔
          ∃ entry tok,
            entry ∈ [ {| entry_account := "alice@example.com"; entry_status := "ACTIVE" |};
                      {| entry_account := "bob@example.com"; entry_status := "" |} ] ∧
            entry_account entry = a ∧
            get_auth_access_token demo_world a = inr tok) ∧
    (∀ a message, get_auth_access_token demo_world a = inl message →
                  (a ∉ accounts) ∧ active ≠ Some a).
Proof.
  split.
  - exact (proj1 (proj2 (list_credentialed_accounts_errors toolless_world))
             (MissingBinary "[Errno 2] No such file or directory: 'gcloud'") eq_refl).
  - exact (proj2 (proj2 (proj2 (list_credentialed_accounts_errors demo_world)))
             "accounts" _ eq_refl eq_refl).
Defined.

Lemma get_credentials_for_account_error_kinds_witness :
  result (get_credentials_for_account array_world "alice@example.com" default_scopes)
  = Raise (Exn AttributeError "'list' object has no attribute 'keys'").
Proof.
  exact (proj1 (proj2 (proj2 (proj2
           (get_credentials_for_account_error_kinds array_world "alice@example.com"
              default_scopes))))
           "[]" "list" eq_refl eq_refl).
Defined.

Lemma init_rejects_unknown_account_witness :
  __init__ demo_world (Some carol_attributes)
  = (demo_enumeration_trace ++ [EvAuthDefault default_scopes],
     Raise (Exn BadUserConfigurationException
              (not_credentialed_message "carol@example.com"))) ∧
  [EvAuthDefault default_scopes] = [EvAuthDefault default_scopes] ∧
  (∀ scopes, EvAuthDefault scopes ∉ demo_enumeration_trace) ∧
  resolver_not_invoked demo_world (trace (__init__ demo_world (Some carol_attributes))).
Proof.
  assert (list_credentialed_accounts demo_world
          = (demo_enumeration_trace, Return (demo_accounts, Some "alice@example.com")))
    as Henum by (vm_compute; reflexivity).
  assert (application_default_credentials_configured demo_world
          = ([EvAuthDefault default_scopes], Return true))
    as Hprobe by (vm_compute; reflexivity).
  assert (list_accounts_pairs demo_accounts true !! account carol_attributes = None)
    as Hmissing by (vm_compute; reflexivity).
  exact (init_rejects_unknown_account demo_world carol_attributes _ _ _ _ _
           Henum Hprobe Hmissing).
Defined.

(** C2, as stated, fails on every machine: the probe that computes the
    option set has already made a default-credential discovery call when
    the account is looked up. *)
Lemma unknown_account_contract_fails_on_probe :
  ¬ unknown_account_contract demo_world carol_attributes.
Proof.
  intros Hcontract.
  assert (list_credentialed_accounts demo_world
          = (demo_enumeration_trace, Return (demo_accounts, Some "alice@example.com")))
    as Henum by (vm_compute; reflexivity).
  assert (application_default_credentials_configured demo_world
          = ([EvAuthDefault default_scopes], Return true))
    as Hprobe by (vm_compute; reflexivity).
  assert (list_accounts_pairs demo_accounts true !! account carol_attributes = None)
    as Hmissing by (vm_compute; reflexivity).
  destruct (Hcontract _ _ _ _ _ Henum Hprobe Hmissing) as (_ & Hquiet & _).
  apply (Hquiet default_scopes).
  assert (trace (__init__ demo_world (Some carol_attributes))
          = demo_enumeration_trace ++ [EvAuthDefault default_scopes])
    as -> by (vm_compute; reflexivity).
  apply elem_of_app. right. by apply list_elem_of_singleton.
Qed.

Lemma init_selects_default_credentials_witness :
  ∃ self,
    __init__ demo_world None
    = (demo_enumeration_trace
         ++ [EvAuthDefault default_scopes; EvAuthDefault default_scopes], Return self) ∧
    active_credentials self = Some "default-credentials" ∧
    credentials self = Some (fresh_credentials "application-default" default_scopes) ∧
    project self = Some "demo-project" ∧
    resolver_not_invoked demo_world (trace (__init__ demo_world None)).
Proof.
  assert (list_credentialed_accounts demo_world
          = (demo_enumeration_trace, Return (demo_accounts, Some "alice@example.com")))
    as Henum by (vm_compute; reflexivity).
  exact (init_selects_default_credentials demo_world _ _ _ _ _ Henum eq_refl).
Defined.

(** C4, as stated, fails on a machine where default credentials are
    configured but the credential tool cannot be invoked: enumeration comes
    first and its failure ends the construction. *)
Lemma default_selection_contract_fails_without_tool :
  ¬ default_selection_contract toolless_world.
Proof.
  intros Hcontract.
  destruct (Hcontract (fresh_credentials "application-default" default_scopes)
                      (Some "demo-project") eq_refl) as (self & Hreturn & _).
  assert (result (__init__ toolless_world None)
          = Raise (ExnFrom BadUserConfigurationException "Gcloud cannot be invoked."
                     (Exn FileNotFoundError
                          "[Errno 2] No such file or directory: 'gcloud'")))
    as Hraise by (vm_compute; reflexivity).
  rewrite Hraise in Hreturn. discriminate.
Qed.

Lemma call_on_unselected_instance_witness :
  ∃ self e,
    __init__ bare_world None
    = ([EvCheckOutput ["gcloud"; "auth"; "list"; "--format"; "json"]]
         ++ [EvAuthDefault default_scopes], Return self) ∧
    credentials self = None ∧
    active_credentials self = None ∧
    __call__ bare_world demo_request self = ([], self, Raise e) ∧
    exn_cls e = AttributeError ∧
    exn_cls e ≠ BadUserConfigurationException.
Proof.
  assert (list_credentialed_accounts bare_world
          = ([EvCheckOutput ["gcloud"; "auth"; "list"; "--format"; "json"]],
             Return (∅, None)))
    as Henum by (vm_compute; reflexivity).
  assert (application_default_credentials_configured bare_world
          = ([EvAuthDefault default_scopes], Return false))
    as Hprobe by (vm_compute; reflexivity).
  exact (call_on_unselected_instance bare_world _ _ _ demo_request Henum Hprobe).
Defined.

Lemma call_attaches_bearer_token_witness :
  ∃ t self' o,
    __call__ demo_world demo_request (demo_instance (Some demo_credentials)) = (t, self', o) ∧
    t = [EvRefresh demo_credentials] ∧
    refresh_calls t = 1 ∧
    credentials self' = Some (refreshed_credentials demo_credentials) ∧
    ∃ request',
      o = Return request' ∧
      headers request' !! "Authorization" = Some "Bearer ya29.alice@example.com" ∧
      (∀ key, key ≠ "Authorization" →
              headers request' !! key = headers demo_request !! key) ∧
      request_rest request' = request_rest demo_request.
Proof.
  exact (call_attaches_bearer_token demo_world (demo_instance (Some demo_credentials))
           demo_request demo_credentials eq_refl).
Defined.

(** C1, as stated, fails when the refresh call raises: the callable then
    returns no request at all. *)
Lemma signing_contract_fails_on_refusal :
  ¬ signing_contract refusing_world (demo_instance (Some demo_credentials)) demo_request.
Proof.
  intros Hcontract. specialize (Hcontract demo_credentials eq_refl).
  rewrite (call_with_failing_refresh refusing_world
             (demo_instance (Some demo_credentials)) demo_request demo_credentials
             (Exn RefreshError "invalid_grant: Token has been expired or revoked.")
             eq_refl eq_refl eq_refl) in Hcontract.
  destruct Hcontract as (_ & c' & request' & _ & Hreturn & _). discriminate.
Qed.

Lemma update_with_widget_values_endpoint_witness :
  update_with_widget_values demo_world (demo_instance None)
  = ([], demo_instance None,
     Raise (Exn BadUserConfigurationException no_credentials_message)) ∧
  ∃ t' self' o,
    update_with_widget_values demo_world filled_instance
    = ([EvGetCluster "us-central1-dataproc.googleapis.com:443"
                     "demo-project" "us-central1" "demo-cluster"] ++ t', self', o) ∧
    url self' = "http://host:1234/gateway/default/livy/v1".
Proof.
  split.
  - exact (proj1 (proj1 (update_with_widget_values_endpoint demo_world (demo_instance None))
                    eq_refl)).
  - exact (proj2 (proj2 (update_with_widget_values_endpoint demo_world filled_instance)
                    demo_credentials eq_refl)).
Defined.

Lemma hash_of_identity_url_class_witness :
  __hash__ demo_world (demo_instance None)
  = __hash__ demo_world (demo_instance (Some demo_credentials)).
Proof.
  exact (proj2 (hash_of_identity_url_class demo_world (demo_instance None)
                  (demo_instance (Some demo_credentials)))
           eq_refl eq_refl eq_refl).
Defined.

(** * Further properties of the module *)

(** ** [list_accounts_pairs], on every input *)

(** X1: for every set of accounts and every flag, the entries of
    [list_accounts_pairs] are exactly the pairs (k, k) where k is an account
    of the set, or k is "default-credentials" and the flag is set: every
    value is its own key and nothing else is in the mapping. *)
Theorem list_accounts_pairs_entries (A : gset string) (d : bool) (k v : string) :
  list_accounts_pairs A d !! k = Some v
  ↔ v = k ∧ (k ∈ A ∨ (d = true ∧ k = "default-credentials")).
Proof.
  rewrite list_accounts_pairs_lookup.
  destruct (decide (k ∈ A ∨ (d = true ∧ k = "default-credentials"))) as [Hk|Hk].
  - split; [by intros [= <-] | by intros [-> _]].
  - split; [done | by intros [_ ?]].
Qed.

(** X2: the size of the option set on every input: the flag adds one entry
    only when the set of accounts does not already hold the string
    "default-credentials"; in particular the size is never below the number
    of accounts and never more than one above it. *)
Theorem list_accounts_pairs_size_exact (A : gset string) (d : bool) :
  size (list_accounts_pairs A d)
  = size A + (if d && bool_decide ("default-credentials" ∉ A) then 1 else 0) ∧
  size A ≤ size (list_accounts_pairs A d) ≤ size A + 1.
Proof.
  assert (size (list_accounts_pairs A d)
          = size A + (if d && bool_decide ("default-credentials" ∉ A) then 1 else 0))
    as Hsize.
  { rewrite list_accounts_pairs_size. destruct d; cbn.
    - case_bool_decide as Hfresh.
      + rewrite size_union, size_singleton; [done|].
        intros a Ha ->%elem_of_singleton. done.
      + rewrite Nat.add_0_r. f_equal.
        apply set_eq. intros a. rewrite elem_of_union, elem_of_singleton.
        split; [intros [?| ->]; done | by left].
    - by rewrite (right_id_L ∅ (∪)), Nat.add_0_r. }
  split; [exact Hsize|]. rewrite Hsize. destruct (d && _); lia.
Qed.

(** ** [list_credentialed_accounts], run to the end *)

Section EnumerationRun.
Context (W : World).

Lemma usable_accounts_cons (entry : account_entry) (rest : list account_entry) :
  usable_accounts W (entry :: rest)
  = if token_obtainable W entry
    then entry_account entry :: usable_accounts W rest
    else usable_accounts W rest.
Proof. unfold usable_accounts. cbn. by destruct (token_obtainable W entry). Qed.

Lemma usable_active_accounts_cons (entry : account_entry) (rest : list account_entry) :
  usable_active_accounts W (entry :: rest)
  = if token_obtainable W entry && String.eqb (entry_status entry) "ACTIVE"
    then entry_account entry :: usable_active_accounts W rest
    else usable_active_accounts W rest.
Proof. unfold usable_active_accounts. cbn. by destruct (_ && _). Qed.

(** The loop, as a function of the list it walks. *)
Lemma for_account_in_exact (all_accounts : list account_entry) :
  ∀ (accounts : gset string) (active : option string),
    for_account_in W all_accounts accounts active
    = (probe_events all_accounts,
       Return (list_to_set (usable_accounts W all_accounts) ∪ accounts,
               match last (usable_active_accounts W all_accounts) with
               | Some a => Some a
               | None => active
               end)).
Proof.
  induction all_accounts as [|entry rest IH]; intros accounts active.
  - cbn. io_unfold. by rewrite (left_id_L ∅ (∪)).
  - cbn [for_account_in]. io_unfold.
    rewrite usable_accounts_cons, usable_active_accounts_cons.
    unfold token_obtainable.
    destruct (get_auth_access_token W (entry_account entry)) as [msg|tok];
      cbn; eval_isinstance; cbn.
    + by rewrite IH.
    + rewrite IH. cbn. f_equal. f_equal. f_equal.
      * by rewrite (assoc_L (∪)), (comm_L (∪) _ {[_]}).
      * destruct (String.eqb (entry_status entry) "ACTIVE"); [|done].
        rewrite last_cons. by destruct (last (usable_active_accounts W rest)).
Qed.

Lemma list_credentialed_accounts_exact (output : bytes) (all_accounts : list account_entry) :
  check_output W (list_command W) = inr output →
  loads_accounts W output = inr all_accounts →
  list_credentialed_accounts W
  = (EvCheckOutput (list_command W) :: probe_events all_accounts,
     Return (list_to_set (usable_accounts W all_accounts),
             last (usable_active_accounts W all_accounts))).
Proof.
  intros Hout Hjson. unfold list_credentialed_accounts. fold (list_command W).
  io_unfold. rewrite Hout. cbn. rewrite Hjson. cbn.
  rewrite for_account_in_exact, (right_id_L ∅ (∪)).
  by destruct (last (usable_active_accounts W all_accounts)).
Qed.

Lemma usable_active_is_usable (all_accounts : list account_entry) (a : string) :
  a ∈ usable_active_accounts W all_accounts → a ∈ usable_accounts W all_accounts.
Proof.
  unfold usable_active_accounts, usable_accounts.
  rewrite !list_elem_of_In, !in_map_iff.
  intros (entry & Ha & Hin). exists entry. split; [done|].
  apply filter_In in Hin as [Hin Hok]. apply filter_In.
  split; [done|]. by apply andb_prop in Hok as [? _].
Qed.

(** The active identity that enumeration returns is one of the accounts it
    returns. *)
Lemma list_credentialed_accounts_active_member (t : list event)
    (accounts : gset string) (a : string) :
  list_credentialed_accounts W = (t, Return (accounts, Some a)) → a ∈ accounts.
Proof.
  destruct (check_output W (list_command W)) as [f|output] eqn:Hout.
  { by rewrite (list_credentialed_accounts_failure W f Hout). }
  destruct (loads_accounts W output) as [message|all_accounts] eqn:Hjson.
  { by rewrite (list_credentialed_accounts_malformed W output message Hout Hjson). }
  rewrite (list_credentialed_accounts_exact output all_accounts Hout Hjson).
  intros [= _ <- Hlast]. apply elem_of_list_to_set, usable_active_is_usable.
  by apply last_Some_elem_of.
Qed.

(** X3: when the tool answers with a list, enumeration runs the list
    command once (as [gcloud.cmd] on Windows, as [gcloud] elsewhere) and then
    probes the access token of every listed account exactly once, in listing
    order, whether earlier probes failed or not. *)
Theorem list_credentialed_accounts_probes_each_account_once
    (output : bytes) (all_accounts : list account_entry) :
  check_output W (list_command W) = inr output →
  loads_accounts W output = inr all_accounts →
  trace (list_credentialed_accounts W)
  = EvCheckOutput ((if String.eqb (os_name W) "nt" then "gcloud.cmd" else "gcloud")
                   :: ["auth"; "list"; "--format"; "json"])
    :: map (λ entry, EvGetAuthAccessToken (entry_account entry)) all_accounts.
Proof.
  intros Hout Hjson.
  by rewrite (list_credentialed_accounts_exact output all_accounts Hout Hjson).
Qed.

(** X4: the active identity returned by enumeration is the last listed
    account that is marked ACTIVE and whose access token can be obtained
    (none when there is no such account), and it is always a member of the
    returned set of accounts. *)
Theorem list_credentialed_accounts_active_is_last_usable
    (output : bytes) (all_accounts : list account_entry)
    (accounts : gset string) (active : option string) :
  check_output W (list_command W) = inr output →
  loads_accounts W output = inr all_accounts →
  result (list_credentialed_accounts W) = Return (accounts, active) →
  active = last (map entry_account
                     (List.filter
                        (λ entry,
                           match get_auth_access_token W (entry_account entry) with
                           | inr _ => String.eqb (entry_status entry) "ACTIVE"
                           | inl _ => false
                           end)
                        all_accounts)) ∧
  (∀ a, active = Some a → a ∈ accounts).
Proof.
  intros Hout Hjson.
  rewrite (list_credentialed_accounts_exact output all_accounts Hout Hjson).
  intros [= <- <-]. split.
  - unfold usable_active_accounts, token_obtainable. do 2 f_equal.
    apply filter_ext. intros entry.
    by destruct (get_auth_access_token W (entry_account entry)).
  - intros a Hlast. apply elem_of_list_to_set, usable_active_is_usable.
    by apply last_Some_elem_of.
Qed.

(** X5: when the tool runs but its output is not JSON, enumeration raises
    the decoder's [JSONDecodeError] itself, not wrapped in the configuration
    error, and no access token has been probed. *)
Theorem list_credentialed_accounts_malformed_output
    (output : bytes) (message : string) :
  check_output W (list_command W) = inr output →
  loads_accounts W output = inl message →
  list_credentialed_accounts W
  = ([EvCheckOutput (list_command W)], Raise (Exn JSONDecodeError message)).
Proof.
  intros Hout Hjson.
  by rewrite (list_credentialed_accounts_malformed W output message Hout Hjson).
Qed.

End EnumerationRun.

(** ** [get_credentials_for_account], run to the end *)

Section ResolverRun.
Context (W : World) (account : string) (scopes_list : list string).

(** X6: the resolver returns credentials exactly when the describe command
    runs, its output parses and the parsed record is accepted; what it
    returns is then the credentials object that
    [Credentials.from_authorized_user_info] built for the requested scopes. *)
Theorem get_credentials_for_account_returns (c : Credentials) :
  result (get_credentials_for_account W account scopes_list) = Return c
  ↔ ∃ output info,
      check_output W (describe_command W account) = inr output ∧
      loads_describe W output = inr (JsonObject info) ∧
      from_authorized_user_info W info scopes_list = inr c.
Proof.
  split.
  - destruct (check_output W (describe_command W account)) as [f|output] eqn:Hout.
    { by rewrite (get_credentials_for_account_tool_failure W _ _ f Hout). }
    destruct (loads_describe W output) as [message|[info|python_type]] eqn:Hjson.
    { by rewrite (get_credentials_for_account_malformed W _ _ output message Hout Hjson). }
    + destruct (from_authorized_user_info W info scopes_list) as [message|c'] eqn:Hinfo.
      * by rewrite (get_credentials_for_account_mismatch W _ _ output info message
                      Hout Hjson Hinfo).
      * rewrite (get_credentials_for_account_success W _ _ output info c' Hout Hjson Hinfo).
        intros [= <-]. by exists output, info.
    + by rewrite (get_credentials_for_account_not_object W _ _ output python_type
                    Hout Hjson).
  - intros (output & info & Hout & Hjson & Hinfo).
    by rewrite (get_credentials_for_account_success W _ _ output info c Hout Hjson Hinfo).
Qed.

(** X7: in every run, successful or not, the resolver makes exactly one
    external call: the describe command of the tool for that account, with
    JSON output ([gcloud.cmd] on Windows, [gcloud] elsewhere).  It never
    probes an access token and never runs credential discovery. *)
Theorem get_credentials_for_account_calls_tool_once :
  trace (get_credentials_for_account W account scopes_list)
  = [EvCheckOutput ((if String.eqb (os_name W) "nt" then "gcloud.cmd" else "gcloud")
                    :: ["auth"; "describe"; account; "--format"; "json"])].
Proof.
  destruct (check_output W (describe_command W account)) as [f|output] eqn:Hout.
  { by rewrite (get_credentials_for_account_tool_failure W _ _ f Hout). }
  destruct (loads_describe W output) as [message|[info|python_type]] eqn:Hjson.
  { by rewrite (get_credentials_for_account_malformed W _ _ output message Hout Hjson). }
  - destruct (from_authorized_user_info W info scopes_list) as [message|c] eqn:Hinfo.
    + by rewrite (get_credentials_for_account_mismatch W _ _ output info message
                    Hout Hjson Hinfo).
    + by rewrite (get_credentials_for_account_success W _ _ output info c Hout Hjson Hinfo).
  - by rewrite (get_credentials_for_account_not_object W _ _ output python_type
                  Hout Hjson).
Qed.

End ResolverRun.

(** ** [get_component_gateway_url], run to the end *)

Section EndpointRun.
Context (W : World) (project_id region cluster_name : string) (credentials : Credentials).

Lemma string_append_assoc (s1 s2 s3 : string) :
  (s1 +:+ s2) +:+ s3 = s1 +:+ (s2 +:+ s3).
Proof.
  induction s1 as [|c s1 IH]; [done|].
  change (String c ((s1 +:+ s2) +:+ s3) = String c (s1 +:+ s2 +:+ s3)).
  by rewrite IH.
Qed.

Lemma popitem_nonempty (first : string * string) (rest : list (string * string)) :
  ∃ item, popitem W (first :: rest) = ([], Return item) ∧ item ∈ first :: rest.
Proof.
  eexists. split; [reflexivity|]. apply list_elem_of_In.
  destruct (decide (popitem_pick W (first :: rest) < length (first :: rest))) as [Hlt|Hge].
  - by apply nth_In.
  - rewrite nth_overflow by lia. by left.
Qed.

(** Every run of the resolver, by what the control plane answers. *)
Lemma get_component_gateway_url_cases :
  match get_cluster W credentials (region +:+ "-dataproc.googleapis.com:443")
                    project_id region cluster_name with
  | Raise e =>
      result (get_component_gateway_url W project_id region cluster_name credentials)
      = Raise e
  | Return response =>
      match http_ports response with
      | [] =>
          ∃ e, result (get_component_gateway_url W project_id region cluster_name
                         credentials) = Raise e ∧
               exn_cls e = KeyError
      | _ :: _ =>
          ∃ item, item ∈ http_ports response ∧
            result (get_component_gateway_url W project_id region cluster_name credentials)
            = match parse_url W item.2 with
              | Return parsed_uri =>
                  Return ((format_str (scheme parsed_uri) +:+ "://"
                           +:+ format_str (netloc parsed_uri) +:+ "/")
                          +:+ "gateway/default/livy/v1")
              | Raise e => Raise e
              end
      end
  end.
Proof.
  unfold get_component_gateway_url. io_unfold.
  destruct (get_cluster W credentials _ project_id region cluster_name) as [[ports]|e];
    cbn [http_ports]; [|done].
  destruct ports as [|first rest].
  - cbn. by eexists.
  - destruct (popitem_nonempty first rest) as (item & -> & Hin).
    exists item. split; [done|]. cbn. by destruct (parse_url W item.2).
Qed.

(** X8: when the cluster description publishes no HTTP port at all, the
    resolver raises a [KeyError] (from [popitem] on the empty mapping): the
    caller sees neither a URL nor one of the module's own error kinds. *)
Theorem get_component_gateway_url_without_ports :
  get_cluster W credentials (region +:+ "-dataproc.googleapis.com:443")
              project_id region cluster_name
  = Return {| http_ports := [] |} →
  ∃ e, get_component_gateway_url W project_id region cluster_name credentials
       = ([EvGetCluster (region +:+ "-dataproc.googleapis.com:443")
                        project_id region cluster_name], Raise e) ∧
       exn_cls e = KeyError.
Proof.
  intros Hcluster. unfold get_component_gateway_url. io_unfold.
  rewrite Hcluster. cbn. by eexists.
Qed.

(** X9: the resolver never wraps or translates an exception.  What it
    raises is the very exception of the control-plane call, or the very
    exception of the URL parser on one of the published port URLs, or the
    [KeyError] of an empty port mapping. *)
Theorem get_component_gateway_url_raises_unchanged (e : exn) :
  result (get_component_gateway_url W project_id region cluster_name credentials)
  = Raise e →
  get_cluster W credentials (region +:+ "-dataproc.googleapis.com:443")
              project_id region cluster_name = Raise e
  ∨ (∃ response item,
       get_cluster W credentials (region +:+ "-dataproc.googleapis.com:443")
                   project_id region cluster_name = Return response ∧
       item ∈ http_ports response ∧
       parse_url W item.2 = Raise e)
  ∨ (get_cluster W credentials (region +:+ "-dataproc.googleapis.com:443")
                 project_id region cluster_name = Return {| http_ports := [] |} ∧
     exn_cls e = KeyError).
Proof.
  pose proof get_component_gateway_url_cases as Hcases.
  destruct (get_cluster W credentials _ project_id region cluster_name)
    as [[ports]|e'] eqn:Hcluster.
  - cbn [http_ports] in Hcases. destruct ports as [|first rest].
    + destruct Hcases as (e' & -> & Hcls). intros [= <-]. right. right. done.
    + destruct Hcases as (item & Hin & ->).
      destruct (parse_url W item.2) as [parsed|e'] eqn:Hparse; [done|].
      intros [= <-]. right. left. by exists {| http_ports := first :: rest |}, item.
  - rewrite Hcases. intros [= <-]. by left.
Qed.

(** X10: whenever the resolver returns, the URL it returns is built from
    one of the ports that the cluster publishes: the scheme and the network
    location that the URL parser reads from that port's URL, followed by
    "/gateway/default/livy/v1".  Nothing else of the port's URL enters the
    result. *)
Theorem get_component_gateway_url_from_published_port (gateway : string) :
  result (get_component_gateway_url W project_id region cluster_name credentials)
  = Return gateway →
  ∃ response name port_url parsed_uri,
    get_cluster W credentials (region +:+ "-dataproc.googleapis.com:443")
                project_id region cluster_name = Return response ∧
    (name, port_url) ∈ http_ports response ∧
    parse_url W port_url = Return parsed_uri ∧
    gateway = format_str (scheme parsed_uri) +:+ "://"
              +:+ format_str (netloc parsed_uri) +:+ "/gateway/default/livy/v1".
Proof.
  pose proof get_component_gateway_url_cases as Hcases.
  destruct (get_cluster W credentials _ project_id region cluster_name)
    as [[ports]|e'] eqn:Hcluster.
  - cbn [http_ports] in Hcases. destruct ports as [|first rest].
    + by destruct Hcases as (e' & -> & _).
    + destruct Hcases as ([name port_url] & Hin & ->). cbn.
      destruct (parse_url W port_url) as [parsed|e'] eqn:Hparse; [|done].
      intros [= <-]. exists {| http_ports := first :: rest |}, name, port_url, parsed.
      repeat (split; [done|]).
      by rewrite !string_append_assoc.
  - by rewrite Hcases.
Qed.

End EndpointRun.

(** ** [application_default_credentials_configured] *)

(** X11: the probe of default credentials never raises, whatever the
    discovery does: it makes one discovery call with the two fixed scopes
    and answers true exactly when that call returned a credentials object;
    an exception of the discovery, or a null credentials object, is the
    answer false. *)
Theorem application_default_credentials_configured_total (W : World) :
  ∃ configured,
    application_default_credentials_configured W
    = ([EvAuthDefault ["https://www.googleapis.com/auth/cloud-platform";
                       "https://www.googleapis.com/auth/userinfo.email"]],
       Return configured) ∧
    (configured = true ↔
     ∃ c p, auth_default W ["https://www.googleapis.com/auth/cloud-platform";
                            "https://www.googleapis.com/auth/userinfo.email"]
            = Return (Some c, p)).
Proof.
  unfold application_default_credentials_configured. io_unfold.
  fold default_scopes.
  destruct (auth_default W default_scopes) as [[[c|] p]|e]; cbn.
  - exists true. split; [done|]. split; [by eauto|done].
  - exists false. split; [done|]. split; [done|]. by intros (? & ? & ?).
  - exists false. split; [done|]. split; [done|]. by intros (? & ? & ?).
Qed.

(** ** [GoogleAuth.__init__], on every path *)

Section ConstructionRun.
Context (W : World).

Lemma probe_run_inv (t : list event) (configured : outcome bool) :
  application_default_credentials_configured W = (t, configured) →
  t = [EvAuthDefault default_scopes] ∧
  ∃ b, configured = Return b ∧
       (b = true ↔ ∃ c p, auth_default W default_scopes = Return (Some c, p)).
Proof.
  destruct (application_default_credentials_configured_run W) as (b & Hrun & Hb).
  rewrite Hrun. intros [= <- <-]. split; [done|]. by exists b.
Qed.

(** Inversion of a construction that returned. *)
Lemma init_returns_inv (parsed_attributes : option ParsedAttributes)
    (t : list event) (self : GoogleAuth) :
  __init__ W parsed_attributes = (t, Return self) →
  ∃ t_enum accounts active_user_account configured,
    list_credentialed_accounts W = (t_enum, Return (accounts, active_user_account)) ∧
    result (application_default_credentials_configured W) = Return configured ∧
    credentialed_accounts self = accounts ∧
    default_credentials_configured self = configured ∧
    google_credentials_widget self
    = widgets_google_credentials
        (get_widgets accounts configured (active_credentials self) (WIDGET_WIDTH W)) ∧
    (∀ p, parsed_attributes = Some p →
          is_Some (list_accounts_pairs accounts configured !! account p)) ∧
    selected_by W parsed_attributes active_user_account configured self.
Proof.
  unfold __init__. io_unfold.
  destruct (list_credentialed_accounts W) as [t_enum [[accounts active_user]|e]] eqn:Henum;
    [|done].
  cbn. destruct (application_default_credentials_configured W) as [t_probe o] eqn:Hprobe.
  destruct (probe_run_inv _ _ Hprobe) as (-> & configured & -> & Hconfigured).
  cbn. intros Hinit. exists t_enum, accounts, active_user, configured.
  split; [done|]. split; [done|].
  destruct parsed_attributes as [p|].
  - case_bool_decide as Hknown; [|done].
    destruct (String.eqb (account p) "default-credentials" && configured) eqn:Hdefault.
    + apply andb_prop in Hdefault as [Heq ->]. apply String.eqb_eq in Heq.
      destruct Hconfigured as [Hconfigured _].
      destruct (Hconfigured eq_refl) as (c & pr & Hauth).
      cbn in Hinit. rewrite Hauth in Hinit. cbn in Hinit. injection Hinit as _ <-.
      cbn. repeat (split; [done|]). split; [by intros ? [= <-]|].
      apply (selected_default W _ _ _ _ c); cbn; [done | | done | by rewrite Heq | done].
      right. by exists p.
    + destruct (get_credentials_for_account W (account p) default_scopes)
        as [t_res [c|e]] eqn:Hres; cbn in Hinit; [|done].
      injection Hinit as _ <-. cbn. repeat (split; [done|]).
      split; [by intros ? [= <-]|].
      apply (selected_explicit W _ _ _ _ p c); cbn;
        [done | | by rewrite Hres | done | done].
      intros [Heq ->]. apply String.eqb_eq in Heq. rewrite Heq in Hdefault. done.
  - destruct configured.
    + destruct Hconfigured as [Hconfigured _].
      destruct (Hconfigured eq_refl) as (c & pr & Hauth).
      cbn in Hinit. rewrite Hauth in Hinit. cbn in Hinit. injection Hinit as _ <-.
      cbn. repeat (split; [done|]).
      apply (selected_default W _ _ _ _ c); cbn; [done | by left | done | done | done].
    + destruct active_user as [a|].
      * destruct (get_credentials_for_account W a default_scopes)
          as [t_res [c|e]] eqn:Hres; cbn in Hinit; [|done].
        injection Hinit as _ <-. cbn. repeat (split; [done|]).
        apply (selected_active W _ _ _ _ a c); cbn;
          [done | done | done | by rewrite Hres | done | done].
      * cbn in Hinit. injection Hinit as _ <-. cbn. repeat (split; [done|]).
        by apply (selected_none W).
Qed.

(** X12: a failure of the account enumeration ends every construction,
    whatever the parameter: [__init__] raises what enumeration raised, after
    the calls of enumeration only.  Neither the probe of default credentials
    nor any resolution is attempted, so an explicit account or configured
    default credentials do not help on a machine without the tool. *)
Theorem init_fails_with_enumeration (parsed_attributes : option ParsedAttributes)
    (e : exn) :
  result (list_credentialed_accounts W) = Raise e →
  __init__ W parsed_attributes = (trace (list_credentialed_accounts W), Raise e).
Proof.
  unfold __init__. io_unfold.
  destruct (list_credentialed_accounts W) as [t [?|e']]; cbn; [done|].
  by intros [= ->].
Qed.

(** X13: after every construction that returns, the account dropdown is
    consistent with the instance: its options are the account option set,
    its value is the active identity, it is disabled exactly when there is
    no active identity, and the active identity, when there is one, is one
    of the options (bound to itself). *)
Theorem init_dropdown_consistent (parsed_attributes : option ParsedAttributes)
    (t : list event) (self : GoogleAuth) :
  __init__ W parsed_attributes = (t, Return self) →
  dropdown_options (google_credentials_widget self)
  = list_accounts_pairs (credentialed_accounts self)
                        (default_credentials_configured self) ∧
  dropdown_value (google_credentials_widget self) = active_credentials self ∧
  (dropdown_disabled (google_credentials_widget self) = true
   ↔ active_credentials self = None) ∧
  (∀ a, active_credentials self = Some a →
        dropdown_options (google_credentials_widget self) !! a = Some a).
Proof.
  intros Hinit.
  destruct (init_returns_inv _ _ _ Hinit)
    as (t_enum & accounts & active_user & configured & Henum & _ & <- & <-
        & Hwidget & Hknown & Hselected).
  rewrite Hwidget. unfold get_widgets.
  assert (∀ a, active_credentials self = Some a →
               list_accounts_pairs (credentialed_accounts self)
                 (default_credentials_configured self) !! a = Some a) as Hmember.
  { intros a Ha. rewrite list_accounts_pairs_lookup.
    destruct Hselected as [c Hconf _ _ Hactive _ | p c -> _ _ Hactive _
                          | a' c _ _ -> _ Hactive _ | _ _ _ Hactive _].
    - rewrite Hactive in Ha. injection Ha as <-.
      rewrite decide_True; [done|]. by right.
    - rewrite Hactive in Ha. injection Ha as <-.
      destruct (Hknown p eq_refl) as [v Hv].
      rewrite list_accounts_pairs_lookup in Hv.
      by destruct (decide _).
    - rewrite Hactive in Ha. injection Ha as <-.
      rewrite decide_True; [done|]. left.
      by apply (list_credentialed_accounts_active_member W t_enum).
    - by rewrite Hactive in Ha. }
  destruct (active_credentials self) as [a|] eqn:Hactive; cbn.
  - split; [done|]. split; [done|]. split; [done|].
    intros a' [= <-]. by apply Hmember.
  - by repeat split.
Qed.

(** X14: after every construction that returns, the instance holds
    credentials exactly when it has an active identity. *)
Theorem init_credentials_iff_active_identity
    (parsed_attributes : option ParsedAttributes) (t : list event) (self : GoogleAuth) :
  __init__ W parsed_attributes = (t, Return self) →
  (credentials self = None ↔ active_credentials self = None).
Proof.
  intros Hinit.
  destruct (init_returns_inv _ _ _ Hinit)
    as (t_enum & accounts & active_user & configured & _ & _ & _ & _ & _ & _ & Hselected).
  destruct Hselected as [c _ _ _ -> -> | p c _ _ _ -> -> | a c _ _ _ _ -> ->
                        | _ _ _ -> ->]; done.
Qed.

(** The run of [__init__] once the option set is computed, on the two
    paths that go through the resolver. *)
Lemma init_through_resolver (parsed_attributes : option ParsedAttributes)
    (t : list event) (accounts : gset string) (active_user_account : option string)
    (configured : bool) (a : string) :
  list_credentialed_accounts W = (t, Return (accounts, active_user_account)) →
  result (application_default_credentials_configured W) = Return configured →
  (∃ p, parsed_attributes = Some p ∧ account p = a ∧
        is_Some (list_accounts_pairs accounts configured !! a) ∧
        ¬ (a = "default-credentials" ∧ configured = true))
  ∨ (parsed_attributes = None ∧ configured = false ∧ active_user_account = Some a) →
  match result (get_credentials_for_account W a default_scopes) with
  | Return c =>
      ∃ self,
        __init__ W parsed_attributes
        = (t ++ [EvAuthDefault default_scopes; EvCheckOutput (describe_command W a)],
           Return self) ∧
        active_credentials self = Some a ∧
        credentials self = Some c
  | Raise e =>
      __init__ W parsed_attributes
      = (t ++ [EvAuthDefault default_scopes; EvCheckOutput (describe_command W a)],
         Raise e)
  end.
Proof.
  intros Henum Hconfigured Hpath.
  destruct (application_default_credentials_configured W) as [t_probe o] eqn:Hprobe.
  destruct (probe_run_inv _ _ Hprobe) as (-> & b & -> & _).
  cbn in Hconfigured. injection Hconfigured as ->.
  pose proof (get_credentials_for_account_trace W a default_scopes) as Htrace.
  assert (__init__ W parsed_attributes
          = (t ++ [EvAuthDefault default_scopes; EvCheckOutput (describe_command W a)],
             match result (get_credentials_for_account W a default_scopes) with
             | Return c =>
                 Return
                   {| class_name := "GoogleAuth";
                      credentialed_accounts := accounts;
                      scopes := default_scopes;
                      active_credentials := Some a;
                      default_credentials_configured := configured;
                      credentials := Some c;
                      project := None;
                      url := authenticator_url W parsed_attributes;
                      project_widget :=
                        widgets_project (get_widgets accounts configured (Some a)
                                           (WIDGET_WIDTH W));
                      cluster_name_widget :=
                        widgets_cluster_name (get_widgets accounts configured (Some a)
                                                (WIDGET_WIDTH W));
                      region_widget :=
                        widgets_region (get_widgets accounts configured (Some a)
                                          (WIDGET_WIDTH W));
                      google_credentials_widget :=
                        widgets_google_credentials
                          (get_widgets accounts configured (Some a) (WIDGET_WIDTH W)) |}
             | Raise e => Raise e
             end)) as Hrun.
  { unfold __init__. io_unfold. rewrite Henum. cbn. rewrite Hprobe. cbn.
    destruct (get_credentials_for_account W a default_scopes) as [t_res o] eqn:Hres.
    cbn in Htrace. subst t_res.
    destruct Hpath as [(p & -> & <- & Hknown & Hnot)|(-> & -> & ->)].
    - rewrite bool_decide_eq_true_2 by done.
      destruct (String.eqb (account p) "default-credentials" && configured) eqn:Hdefault.
      { apply andb_prop in Hdefault as [Heq ->]. apply String.eqb_eq in Heq. by destruct Hnot. }
      rewrite Hres. cbn. by destruct o.
    - rewrite Hres. cbn. by destruct o. }
  rewrite Hrun. destruct (result (get_credentials_for_account W a default_scopes)); [|done].
  eexists. split; [reflexivity|]. done.
Qed.

(** X15: an explicit account that is in the option set (and is not the
    entry of configured default credentials) is resolved by the
    Account-to-Credential Resolver for that very account, even when default
    credentials are configured and another identity is active in the tool:
    construction then returns an instance with that account as its active
    identity and the resolver's credentials, after the calls of enumeration,
    the probe and one describe command; an access-token error of the
    resolver ends the construction instead. *)
Theorem init_resolves_explicit_account (p : ParsedAttributes) (t : list event)
    (accounts : gset string) (active_user_account : option string) (configured : bool) :
  list_credentialed_accounts W = (t, Return (accounts, active_user_account)) →
  result (application_default_credentials_configured W) = Return configured →
  is_Some (list_accounts_pairs accounts configured !! account p) →
  ¬ (account p = "default-credentials" ∧ configured = true) →
  match result (get_credentials_for_account W (account p) default_scopes) with
  | Return c =>
      ∃ self,
        __init__ W (Some p)
        = (t ++ [EvAuthDefault default_scopes;
                 EvCheckOutput (describe_command W (account p))],
           Return self) ∧
        active_credentials self = Some (account p) ∧
        credentials self = Some c
  | Raise e =>
      __init__ W (Some p)
      = (t ++ [EvAuthDefault default_scopes;
               EvCheckOutput (describe_command W (account p))],
         Raise e)
  end.
Proof.
  intros Henum Hconfigured Hknown Hnot.
  apply (init_through_resolver (Some p) t accounts active_user_account configured
           (account p) Henum Hconfigured).
  left. by exists p.
Qed.


End ConstructionRun.

(** X23: when default credentials are configured, naming
    "default-credentials" explicitly selects them exactly as giving no
    account does: both constructions make the same calls (enumeration, the
    probe, one discovery) and return the same instance, up to the gateway
    URL that the base class reads from the parameter. *)
Theorem init_explicit_default_credentials (W : World) (p : ParsedAttributes)
    (t : list event) (accounts : gset string) (active_user_account : option string)
    (c : Credentials) (discovered_project : option string) :
  list_credentialed_accounts W = (t, Return (accounts, active_user_account)) →
  auth_default W default_scopes = Return (Some c, discovered_project) →
  account p = "default-credentials" →
  ∃ self,
    __init__ W None
    = (t ++ [EvAuthDefault default_scopes; EvAuthDefault default_scopes], Return self) ∧
    __init__ W (Some p)
    = (t ++ [EvAuthDefault default_scopes; EvAuthDefault default_scopes],
       Return (set_url (authenticator_url W (Some p)) self)) ∧
    active_credentials self = Some "default-credentials" ∧
    credentials self = Some c.
Proof.
  intros Henum Hdefault Hp.
  assert (application_default_credentials_configured W
          = ([EvAuthDefault default_scopes], Return true)) as Hprobe.
  { unfold application_default_credentials_configured. io_unfold. by rewrite Hdefault. }
  assert (is_Some (list_accounts_pairs accounts true !! account p)) as Hknown.
  { exists "default-credentials". rewrite Hp, list_accounts_pairs_lookup.
    rewrite decide_True; [done|]. by right. }
  eexists. split; [|split].
  - unfold __init__. io_unfold. rewrite Henum. cbn. rewrite Hprobe. cbn.
    rewrite Hdefault. cbn. reflexivity.
  - unfold __init__. io_unfold. rewrite Henum. cbn. rewrite Hprobe. cbn.
    rewrite bool_decide_eq_true_2 by done. rewrite Hp. cbn.
    rewrite Hdefault. cbn. reflexivity.
  - done.
Qed.

(** ** The methods of [GoogleAuth], composed *)

Section MethodsRun.
Context (W : World).

Lemma same_identity_refl (self : GoogleAuth) : same_identity self self.
Proof. by repeat split. Qed.

(** Every run of the re-selection, by the dropdown's value. *)
Lemma initialize_credentials_cases (selected : option string) (self : GoogleAuth) :
  initialize_credentials_with_auth_account_selection W selected self
  = if bool_decide (selected = active_credentials self) then ([], self, Return ())
    else match selected with
         | None =>
             ([], self,
              Raise (Exn TypeError "expected str, bytes or os.PathLike object, not NoneType"))
         | Some a =>
             if bool_decide (a = "default-credentials") then
               match auth_default W (scopes self) with
               | Return (c, p) =>
                   ([EvAuthDefault (scopes self)],
                    set_project p (set_credentials c self), Return ())
               | Raise e => ([EvAuthDefault (scopes self)], self, Raise e)
               end
             else
               match result (get_credentials_for_account W a (scopes self)) with
               | Return c =>
                   ([EvCheckOutput (describe_command W a)],
                    set_credentials (Some c) self, Return ())
               | Raise e => ([EvCheckOutput (describe_command W a)], self, Raise e)
               end
         end.
Proof.
  unfold initialize_credentials_with_auth_account_selection. io_unfold.
  destruct (decide (selected = active_credentials self)) as [Heq|Hne].
  - rewrite bool_decide_eq_false_2 by (by intros ?).
    by rewrite bool_decide_eq_true_2.
  - rewrite (bool_decide_eq_true_2 (selected ≠ _)) by done.
    rewrite (bool_decide_eq_false_2 (selected = active_credentials self)) by done.
    destruct selected as [a|].
    + destruct (decide (a = "default-credentials")) as [->|Ha].
      * rewrite !bool_decide_eq_true_2 by done.
        by destruct (auth_default W (scopes self)) as [[c p]|e].
      * rewrite (bool_decide_eq_false_2 (Some a = _)) by (by intros [= ?]).
        rewrite (bool_decide_eq_false_2 (a = _)) by done.
        pose proof (get_credentials_for_account_trace W a (scopes self)) as Htrace.
        destruct (get_credentials_for_account W a (scopes self)) as [t [c|e]].
        -- cbn in *. by subst t.
        -- cbn in *. by subst t.
    + by rewrite bool_decide_eq_false_2.
Qed.

Lemma initialize_credentials_frame (selected : option string) (self : GoogleAuth) :
  same_identity self
    (initialize_credentials_with_auth_account_selection W selected self).1.2.
Proof.
  rewrite initialize_credentials_cases.
  case_bool_decide; [apply same_identity_refl|].
  destruct selected as [a|]; [|apply same_identity_refl].
  case_bool_decide.
  - destruct (auth_default W (scopes self)) as [[c p]|e]; by repeat split.
  - destruct (result (get_credentials_for_account W a (scopes self))); by repeat split.
Qed.

(** X17: re-selection of the account never changes the active identity,
    the gateway URL, the option set or the widgets of the instance, whether
    it succeeds or raises: it only ever assigns the credentials (and the
    project).  The hash of the instance is therefore the same before and
    after, even when the credentials now belong to another account. *)
Theorem initialize_credentials_keeps_identity (selected : option string)
    (self : GoogleAuth) :
  let self' := (initialize_credentials_with_auth_account_selection W selected self).1.2 in
  active_credentials self' = active_credentials self ∧
  url self' = url self ∧
  credentialed_accounts self' = credentialed_accounts self ∧
  default_credentials_configured self' = default_credentials_configured self ∧
  google_credentials_widget self' = google_credentials_widget self ∧
  __hash__ W self' = __hash__ W self.
Proof.
  cbv zeta.
  destruct (initialize_credentials_frame selected self)
    as (Hclass & Haccounts & _ & Hactive & Hconfigured & Hurl & _ & _ & _ & Hwidget).
  repeat (split; [done|]). unfold __hash__. by rewrite Hclass, Hactive, Hurl.
Qed.

(** X18: because the active identity is never updated, a selection that
    differs from it is resolved again on every run: running the
    re-selection a second time, on the instance the first run left, makes
    the same external calls, ends the same way and leaves the same instance.
    For a selected account that is exactly one call per run. *)
Theorem initialize_credentials_resolves_again (selected : option string)
    (self : GoogleAuth) :
  selected ≠ active_credentials self →
  let run := initialize_credentials_with_auth_account_selection W selected self in
  initialize_credentials_with_auth_account_selection W selected run.1.2 = run ∧
  (∀ a, selected = Some a → length run.1.1 = 1).
Proof.
  intros Hne. cbv zeta. rewrite (initialize_credentials_cases selected self).
  rewrite (bool_decide_eq_false_2 (selected = active_credentials self)) by done.
  destruct selected as [a|]; [|split; [|done]].
  - destruct (bool_decide (a = "default-credentials")) eqn:Ha.
    + destruct (auth_default W (scopes self)) as [[c p]|e] eqn:Hauth;
        (split; [|done]); rewrite initialize_credentials_cases; cbn;
        rewrite (bool_decide_eq_false_2 (Some a = _)) by done;
        by rewrite Ha, Hauth.
    + destruct (result (get_credentials_for_account W a (scopes self)))
        as [c|e] eqn:Hres;
        (split; [|done]); rewrite initialize_credentials_cases; cbn;
        rewrite (bool_decide_eq_false_2 (Some a = _)) by done;
        by rewrite Ha, Hres.
  - rewrite initialize_credentials_cases. cbn.
    by rewrite bool_decide_eq_false_2.
Qed.

(** X19: when the dropdown still shows the active identity,
    [update_with_widget_values] on an instance with credentials is the
    Endpoint Resolver and nothing else: it makes the one [get_cluster] call,
    stores the returned URL and returns, leaving the credentials as they
    were; no account is resolved. *)
Theorem update_with_unchanged_selection (self : GoogleAuth) (c : Credentials)
    (gateway : string) :
  credentials self = Some c →
  dropdown_value (google_credentials_widget self) = active_credentials self →
  result (get_component_gateway_url W (text_value (project_widget self))
            (text_value (region_widget self)) (text_value (cluster_name_widget self)) c)
  = Return gateway →
  update_with_widget_values W self
  = ([EvGetCluster (text_value (region_widget self) +:+ "-dataproc.googleapis.com:443")
                   (text_value (project_widget self))
                   (text_value (region_widget self))
                   (text_value (cluster_name_widget self))],
     set_url gateway self, Return ()).
Proof.
  intros Hc Hsame Hgateway.
  pose proof (get_component_gateway_url_trace W (text_value (project_widget self))
                (text_value (region_widget self))
                (text_value (cluster_name_widget self)) c) as Htrace.
  unfold update_with_widget_values. io_unfold. rewrite Hc.
  destruct (get_component_gateway_url W _ _ _ c) as [t o]. cbn in *. subst t o. cbn.
  rewrite initialize_credentials_cases. cbn.
  by rewrite bool_decide_eq_true_2.
Qed.

(** X20: when the dropdown shows another account, the gateway URL is
    resolved first, with the credentials the instance held before, and only
    then is the selected account resolved.  If that resolution succeeds the
    instance ends with the new credentials and the URL obtained with the old
    ones; if it raises, the call raises the access-token error and the
    instance keeps the old credentials together with the new URL. *)
Theorem update_with_changed_selection (self : GoogleAuth) (c : Credentials)
    (a gateway : string) :
  credentials self = Some c →
  dropdown_value (google_credentials_widget self) = Some a →
  active_credentials self ≠ Some a →
  a ≠ "default-credentials" →
  result (get_component_gateway_url W (text_value (project_widget self))
            (text_value (region_widget self)) (text_value (cluster_name_widget self)) c)
  = Return gateway →
  update_with_widget_values W self
  = match result (get_credentials_for_account W a (scopes self)) with
    | Return c' =>
        ([EvGetCluster (text_value (region_widget self) +:+ "-dataproc.googleapis.com:443")
                       (text_value (project_widget self))
                       (text_value (region_widget self))
                       (text_value (cluster_name_widget self));
          EvCheckOutput (describe_command W a)],
         set_credentials (Some c') (set_url gateway self), Return ())
    | Raise e =>
        ([EvGetCluster (text_value (region_widget self) +:+ "-dataproc.googleapis.com:443")
                       (text_value (project_widget self))
                       (text_value (region_widget self))
                       (text_value (cluster_name_widget self));
          EvCheckOutput (describe_command W a)],
         set_url gateway self, Raise e)
    end.
Proof.
  intros Hc Hselected Hactive Ha Hgateway.
  pose proof (get_component_gateway_url_trace W (text_value (project_widget self))
                (text_value (region_widget self))
                (text_value (cluster_name_widget self)) c) as Htrace.
  unfold update_with_widget_values. io_unfold. rewrite Hc.
  destruct (get_component_gateway_url W _ _ _ c) as [t o]. cbn in *. subst t o. cbn.
  rewrite initialize_credentials_cases. cbn. rewrite Hselected.
  rewrite (bool_decide_eq_false_2 (Some a = _)) by done.
  rewrite (bool_decide_eq_false_2 (a = _)) by done.
  by destruct (result (get_credentials_for_account W a (scopes self))).
Qed.

(** X21: signing a request never changes the active identity, the gateway
    URL, the project, the option set or the widgets of the instance, whether
    it refreshes, fails to refresh or finds no credentials; the hash of the
    instance is the same before and after every call. *)
Theorem call_keeps_identity (request : Request) (self : GoogleAuth) :
  let self' := (__call__ W request self).1.2 in
  same_identity self self' ∧
  project self' = project self ∧
  __hash__ W self' = __hash__ W self.
Proof.
  cbv zeta. destruct (credentials self) as [c|] eqn:Hc.
  - destruct (valid c) eqn:Hvalid.
    + rewrite (call_with_valid_credentials W self request c Hc Hvalid).
      split; [apply same_identity_refl | done].
    + destruct (refresh W c) as [c'|e] eqn:Hrefresh.
      * rewrite (call_with_refreshed_credentials W self request c c' Hc Hvalid Hrefresh).
        by repeat split.
      * rewrite (call_with_failing_refresh W self request c e Hc Hvalid Hrefresh).
        split; [apply same_identity_refl | done].
  - rewrite (call_without_credentials_raises W self request Hc).
    split; [apply same_identity_refl | done].
Qed.

End MethodsRun.

(** * The further properties at work on concrete machines *)

Lemma list_credentialed_accounts_probes_each_account_once_witness :
  trace (list_credentialed_accounts windows_world)
  = [EvCheckOutput ["gcloud.cmd"; "auth"; "list"; "--format"; "json"];
     EvGetAuthAccessToken "alice@example.com";
     EvGetAuthAccessToken "bob@example.com"].
Proof.
  exact (list_credentialed_accounts_probes_each_account_once windows_world "accounts"
           [ {| entry_account := "alice@example.com"; entry_status := "ACTIVE" |};
             {| entry_account := "bob@example.com"; entry_status := "" |} ]
           eq_refl eq_refl).
Defined.

Lemma list_credentialed_accounts_active_is_last_usable_witness :
  Some "carol@example.com"
  = last (map entry_account
            (List.filter
               (λ entry,
                  match get_auth_access_token crowded_world (entry_account entry) with
                  | inr _ => String.eqb (entry_status entry) "ACTIVE"
                  | inl _ => false
                  end)
               [ {| entry_account := "alice@example.com"; entry_status := "ACTIVE" |};
                 {| entry_account := "bob@example.com"; entry_status := "ACTIVE" |};
                 {| entry_account := "carol@example.com"; entry_status := "ACTIVE" |} ])) ∧
  (∀ a, Some "carol@example.com" = Some a →
        a ∈ ({["alice@example.com"; "carol@example.com"]} : gset string)).
Proof.
  assert (result (list_credentialed_accounts crowded_world)
          = Return ({["alice@example.com"; "carol@example.com"]},
                    Some "carol@example.com")) as Hrun by (vm_compute; reflexivity).
  exact (list_credentialed_accounts_active_is_last_usable crowded_world "accounts"
           _ _ _ eq_refl eq_refl Hrun).
Defined.

Lemma list_credentialed_accounts_malformed_output_witness :
  list_credentialed_accounts garbled_world
  = ([EvCheckOutput ["gcloud"; "auth"; "list"; "--format"; "json"]],
     Raise (Exn JSONDecodeError "Expecting value: line 1 column 1 (char 0)")).
Proof.
  exact (list_credentialed_accounts_malformed_output garbled_world
           "WARNING: Could not setup log file"
           "Expecting value: line 1 column 1 (char 0)" eq_refl eq_refl).
Defined.

Lemma get_credentials_for_account_returns_witness :
  result (get_credentials_for_account demo_world "alice@example.com" default_scopes)
  = Return (fresh_credentials "alice@example.com" default_scopes).
Proof.
  apply (get_credentials_for_account_returns demo_world "alice@example.com"
           default_scopes (fresh_credentials "alice@example.com" default_scopes)).
  exists "alice@example.com", [("refresh_token", "alice@example.com")].
  repeat split.
Defined.

Lemma get_component_gateway_url_without_ports_witness :
  ∃ e, get_component_gateway_url portless_world "demo-project" "us-central1"
         "demo-cluster" demo_credentials
       = ([EvGetCluster "us-central1-dataproc.googleapis.com:443" "demo-project"
                        "us-central1" "demo-cluster"], Raise e) ∧
       exn_cls e = KeyError.
Proof.
  exact (get_component_gateway_url_without_ports portless_world "demo-project"
           "us-central1" "demo-cluster" demo_credentials eq_refl).
Defined.

Lemma get_component_gateway_url_raises_unchanged_witness :
  get_cluster forbidden_world demo_credentials "us-central1-dataproc.googleapis.com:443"
              "demo-project" "us-central1" "demo-cluster"
  = Raise (Exn GoogleAPICallError "403 Permission denied on resource project")
  ∨ (∃ response item,
       get_cluster forbidden_world demo_credentials
                   "us-central1-dataproc.googleapis.com:443"
                   "demo-project" "us-central1" "demo-cluster" = Return response ∧
       item ∈ http_ports response ∧
       parse_url forbidden_world item.2
       = Raise (Exn GoogleAPICallError "403 Permission denied on resource project"))
  ∨ (get_cluster forbidden_world demo_credentials
                 "us-central1-dataproc.googleapis.com:443"
                 "demo-project" "us-central1" "demo-cluster"
     = Return {| http_ports := [] |} ∧
     exn_cls (Exn GoogleAPICallError "403 Permission denied on resource project")
     = KeyError).
Proof.
  exact (get_component_gateway_url_raises_unchanged forbidden_world "demo-project"
           "us-central1" "demo-cluster" demo_credentials
           (Exn GoogleAPICallError "403 Permission denied on resource project") eq_refl).
Defined.

Lemma get_component_gateway_url_from_published_port_witness :
  ∃ response name port_url parsed_uri,
    get_cluster two_port_world demo_credentials "us-central1-dataproc.googleapis.com:443"
                "demo-project" "us-central1" "demo-cluster" = Return response ∧
    (name, port_url) ∈ http_ports response ∧
    parse_url two_port_world port_url = Return parsed_uri ∧
    "https://history:18080/gateway/default/livy/v1"
    = format_str (scheme parsed_uri) +:+ "://"
      +:+ format_str (netloc parsed_uri) +:+ "/gateway/default/livy/v1".
Proof.
  exact (get_component_gateway_url_from_published_port two_port_world "demo-project"
           "us-central1" "demo-cluster" demo_credentials
           "https://history:18080/gateway/default/livy/v1" eq_refl).
Defined.

Lemma init_fails_with_enumeration_witness :
  __init__ toolless_world (Some alice_attributes)
  = ([EvCheckOutput ["gcloud"; "auth"; "list"; "--format"; "json"]],
     Raise (ExnFrom BadUserConfigurationException "Gcloud cannot be invoked."
              (Exn FileNotFoundError "[Errno 2] No such file or directory: 'gcloud'"))).
Proof.
  exact (init_fails_with_enumeration toolless_world (Some alice_attributes) _ eq_refl).
Defined.

Lemma init_dropdown_consistent_witness :
  dropdown_options (google_credentials_widget cli_only_instance)
  = list_accounts_pairs (credentialed_accounts cli_only_instance)
                        (default_credentials_configured cli_only_instance) ∧
  dropdown_value (google_credentials_widget cli_only_instance)
  = active_credentials cli_only_instance ∧
  (dropdown_disabled (google_credentials_widget cli_only_instance) = true
   ↔ active_credentials cli_only_instance = None) ∧
  (∀ a, active_credentials cli_only_instance = Some a →
        dropdown_options (google_credentials_widget cli_only_instance) !! a = Some a).
Proof.
  assert (__init__ cli_only_world None
          = (trace (__init__ cli_only_world None), Return cli_only_instance))
    as Hinit by (vm_compute; reflexivity).
  exact (init_dropdown_consistent cli_only_world None _ cli_only_instance Hinit).
Defined.

Lemma init_credentials_iff_active_identity_witness :
  credentials cli_only_instance = None ↔ active_credentials cli_only_instance = None.
Proof.
  assert (__init__ cli_only_world None
          = (trace (__init__ cli_only_world None), Return cli_only_instance))
    as Hinit by (vm_compute; reflexivity).
  exact (init_credentials_iff_active_identity cli_only_world None _ cli_only_instance Hinit).
Defined.

Lemma init_resolves_explicit_account_witness :
  ∃ self,
    __init__ demo_world (Some alice_attributes)
    = (demo_enumeration_trace
         ++ [EvAuthDefault default_scopes;
             EvCheckOutput ["gcloud"; "auth"; "describe"; "alice@example.com";
                            "--format"; "json"]],
       Return self) ∧
    active_credentials self = Some "alice@example.com" ∧
    credentials self = Some (fresh_credentials "alice@example.com" default_scopes).
Proof.
  assert (list_credentialed_accounts demo_world
          = (demo_enumeration_trace, Return (demo_accounts, Some "alice@example.com")))
    as Henum by (vm_compute; reflexivity).
  assert (is_Some (list_accounts_pairs demo_accounts true !! account alice_attributes))
    as Hknown by (exists "alice@example.com"; vm_compute; reflexivity).
  assert (¬ (account alice_attributes = "default-credentials" ∧ true = true))
    as Hnot by (by intros [? _]).
  exact (init_resolves_explicit_account demo_world alice_attributes _ _ _ true
           Henum eq_refl Hknown Hnot).
Defined.


Lemma initialize_credentials_resolves_again_witness :
  initialize_credentials_with_auth_account_selection demo_world (Some "bob@example.com")
    (initialize_credentials_with_auth_account_selection demo_world
       (Some "bob@example.com") filled_instance).1.2
  = initialize_credentials_with_auth_account_selection demo_world
      (Some "bob@example.com") filled_instance ∧
  (∀ a, Some "bob@example.com" = Some a →
        length (initialize_credentials_with_auth_account_selection demo_world
                  (Some "bob@example.com") filled_instance).1.1 = 1).
Proof.
  assert (Some "bob@example.com" ≠ active_credentials filled_instance)
    as Hne by (by intros [= ?]).
  exact (initialize_credentials_resolves_again demo_world (Some "bob@example.com")
           filled_instance Hne).
Defined.

Lemma update_with_unchanged_selection_witness :
  update_with_widget_values demo_world filled_instance
  = ([EvGetCluster "us-central1-dataproc.googleapis.com:443" "demo-project"
                   "us-central1" "demo-cluster"],
     set_url "http://host:1234/gateway/default/livy/v1" filled_instance, Return ()).
Proof.
  exact (update_with_unchanged_selection demo_world filled_instance demo_credentials
           "http://host:1234/gateway/default/livy/v1" eq_refl eq_refl eq_refl).
Defined.

Lemma update_with_changed_selection_witness :
  update_with_widget_values demo_world reselected_instance
  = ([EvGetCluster "us-central1-dataproc.googleapis.com:443" "demo-project"
                   "us-central1" "demo-cluster";
      EvCheckOutput ["gcloud"; "auth"; "describe"; "bob@example.com";
                     "--format"; "json"]],
     set_credentials (Some (fresh_credentials "bob@example.com" default_scopes))
       (set_url "http://host:1234/gateway/default/livy/v1" reselected_instance),
     Return ()).
Proof.
  assert (active_credentials reselected_instance ≠ Some "bob@example.com")
    as Hactive by (by intros [= ?]).
  assert ("bob@example.com" ≠ "default-credentials") as Hbob by (by intros [= ?]).
  exact (update_with_changed_selection demo_world reselected_instance demo_credentials
           "bob@example.com" "http://host:1234/gateway/default/livy/v1"
           eq_refl eq_refl Hactive Hbob eq_refl).
Defined.

Lemma init_explicit_default_credentials_witness :
  ∃ self,
    __init__ demo_world None
    = (demo_enumeration_trace
         ++ [EvAuthDefault default_scopes; EvAuthDefault default_scopes], Return self) ∧
    __init__ demo_world (Some {| account := "default-credentials";
                                 attributes_url := "https://livy.example.com" |})
    = (demo_enumeration_trace
         ++ [EvAuthDefault default_scopes; EvAuthDefault default_scopes],
       Return (set_url "https://livy.example.com" self)) ∧
    active_credentials self = Some "default-credentials" ∧
    credentials self = Some (fresh_credentials "application-default" default_scopes).
Proof.
  assert (list_credentialed_accounts demo_world
          = (demo_enumeration_trace, Return (demo_accounts, Some "alice@example.com")))
    as Henum by (vm_compute; reflexivity).
  exact (init_explicit_default_credentials demo_world
           {| account := "default-credentials";
              attributes_url := "https://livy.example.com" |}
           _ _ _ _ _ Henum eq_refl eq_refl).
Defined.
